(** * create-dataset.py: the bank-marketing transformation pipeline

    A shallow embedding of [process_data] and of the script's entry point
    ("Assignment 1/create-dataset.py"), with the pandas operations the
    script calls modelled at the level the script observes them. *)

From Stdlib Require Import List String Ascii ZArith Bool Lia.
From Stdlib Require Import DecimalString QArith.
From Stdlib Require PrimFloat FloatOps SpecFloat.
Import ListNotations.
Close Scope Q_scope.
Open Scope string_scope.

(** ** Python string operations used by the script *)

Module PyStr.

(** [s.startswith(p)] *)
Definition startswith (s p : string) : bool := String.prefix p s.

(** [sub in s] *)
Fixpoint contains (sub s : string) : bool :=
  match s with
  | EmptyString => String.prefix sub EmptyString
  | String _ s' => String.prefix sub s || contains sub s'
  end.

(** [s.replace(old, new, count)] for a non-empty [old]: the leftmost,
    non-overlapping occurrences are replaced, at most [count] of them
    ([None] stands for Python's default, all of them).  [skip] counts the
    characters of an occurrence just replaced that are still to be dropped. *)
Fixpoint replace_go (old new : string) (count : option nat) (skip : nat)
         (s : string) : string :=
  match s with
  | EmptyString => EmptyString
  | String c s' =>
      match skip with
      | S k => replace_go old new count k s'
      | O =>
          match count with
          | Some O => s
          | _ =>
              if String.prefix old s
              then new ++ replace_go old new (option_map Nat.pred count)
                                     (String.length old - 1) s'
              else String c (replace_go old new count 0 s')
          end
      end
  end.

Definition replace (s old new : string) : string :=
  replace_go old new None 0 s.

Definition replace_n (s old new : string) (count : nat) : string :=
  replace_go old new (Some count) 0 s.

(** [sep.join(l)] *)
Definition join (sep : string) (l : list string) : string :=
  String.concat sep l.

(** [c * n] for a one-character string *)
Fixpoint times (c : ascii) (n : nat) : string :=
  match n with
  | O => EmptyString
  | S k => String c (times c k)
  end.

(** [s.split(sep)] for a one-character separator *)
Fixpoint split (sep : ascii) (s : string) : list string :=
  match s with
  | EmptyString => [EmptyString]
  | String c r =>
      if Ascii.eqb c sep then EmptyString :: split sep r
      else match split sep r with
           | h :: t => String c h :: t
           | [] => [String c EmptyString]
           end
  end.

(** [str(z)] for an integer *)
Definition of_Z (z : Z) : string := NilZero.string_of_int (Z.to_int z).

Definition of_nat (n : nat) : string := of_Z (Z.of_nat n).

End PyStr.

(** ** The script's constants *)

Definition target_columns : list string :=
  [ "age"; "job=housemaid"; "job=services"; "job=admin."; "job=blue-collar";
    "job=technician"; "job=retired"; "job=management"; "job=unemployed";
    "job=self-employed"; "job=unknown"; "job=entrepreneur"; "job=student";
    "marital=married"; "marital=single"; "marital=divorced"; "marital=unknown";
    "education=basic.4y"; "education=high.school"; "education=basic.6y";
    "education=basic.9y"; "education=professional.course"; "education=unknown";
    "education=university.degree"; "education=illiterate"; "default=0";
    "default=unknown"; "default=1"; "housing=0"; "housing=1"; "housing=unknown";
    "loan=0"; "loan=1"; "loan=unknown"; "contact=cellular"; "month=may";
    "month=jun"; "month=jul"; "month=aug"; "month=oct"; "month=nov";
    "month=dec"; "month=mar"; "month=apr"; "month=sep"; "day_of_week=mon";
    "day_of_week=tue"; "day_of_week=wed"; "day_of_week=thu"; "day_of_week=fri";
    "duration"; "campaign"; "pdays"; "previous"; "poutcome=nonexistent";
    "poutcome=failure"; "poutcome=success"; "emp.var.rate"; "cons.price.idx";
    "cons.conf.idx"; "euribor3m"; "nr.employed"; "class" ].

Definition numeric_cols : list string :=
  [ "age"; "duration"; "campaign"; "pdays"; "previous";
    "emp.var.rate"; "cons.price.idx"; "cons.conf.idx";
    "euribor3m"; "nr.employed" ].

Definition categorical_cols : list string :=
  [ "job"; "marital"; "education"; "default"; "housing";
    "loan"; "contact"; "month"; "day_of_week"; "poutcome" ].

(** The literal the entry point compares the returned header with. *)
Definition expected_header : string :=
  "age,job=housemaid,job=services,job=admin.,job=blue-collar,job=technician,job=retired,job=management,job=unemployed,job=self-employed,job=unknown,job=entrepreneur,job=student,marital=married,marital=single,marital=divorced,marital=unknown,education=basic.4y,education=high.school,education=basic.6y,education=basic.9y,education=professional.course,education=unknown,education=university.degree,education=illiterate,default=0,default=unknown,default=1,housing=0,housing=1,housing=unknown,loan=0,loan=1,loan=unknown,contact=cellular,month=may,month=jun,month=jul,month=aug,month=oct,month=nov,month=dec,month=mar,month=apr,month=sep,day_of_week=mon,day_of_week=tue,day_of_week=wed,day_of_week=thu,day_of_week=fri,duration,campaign,pdays,previous,poutcome=nonexistent,poutcome=failure,poutcome=success,emp.var.rate,cons.price.idx,cons.conf.idx,euribor3m,nr.employed,class".

(** ** Step 5: the rename pass *)

(** The inner loop of step 5, [for prefix in categorical_cols: if
    col.startswith(prefix + '_'): final_col = col.replace(..., 1); break]. *)
Fixpoint prefix_pass (prefixes : list string) (col : string) : string :=
  match prefixes with
  | [] => col
  | prefix :: rest =>
      if PyStr.startswith col (prefix ++ "_")
      then PyStr.replace_n col (prefix ++ "_") (prefix ++ "=") 1
      else prefix_pass rest col
  end.

(** [if old in final_col: final_col = final_col.replace(old, new)] *)
Definition binary_adjust (old new final_col : string) : string :=
  if PyStr.contains old final_col then PyStr.replace final_col old new
  else final_col.

(** The body of the outer loop: the value stored in [column_mapping[col]]. *)
Definition final_col (col : string) : string :=
  let final_col := prefix_pass categorical_cols col in
  let final_col := binary_adjust "default=no" "default=0" final_col in
  let final_col := binary_adjust "default=yes" "default=1" final_col in
  let final_col := binary_adjust "housing=no" "housing=0" final_col in
  let final_col := binary_adjust "housing=yes" "housing=1" final_col in
  let final_col := binary_adjust "loan=no" "loan=0" final_col in
  let final_col := binary_adjust "loan=yes" "loan=1" final_col in
  final_col.

(** A Python dictionary from strings to strings, as its items in insertion
    order; a key occurs once. *)
Definition dict : Type := list (string * string).

(** [d[key] = value] *)
Fixpoint dict_set (d : dict) (key value : string) : dict :=
  match d with
  | [] => [(key, value)]
  | (k, v) :: r =>
      if String.eqb key k then (k, value) :: r
      else (k, v) :: dict_set r key value
  end.

(** [d.get(key, default)] *)
Fixpoint dict_get (d : dict) (key default : string) : string :=
  match d with
  | [] => default
  | (k, v) :: r => if String.eqb key k then v else dict_get r key default
  end.

(** The dictionary that the outer loop of step 5 builds, one assignment
    [column_mapping[col] = final_col] for each column. *)
Definition column_mapping (columns : list string) : dict :=
  fold_left (fun d col => dict_set d col (final_col col)) columns [].

(** The binary-field canonicalisation as the specification words it: six
    literal substitutions, applied in this order after the prefix rename,
    each one whenever its left-hand side occurs in the name. *)
Module RenameSpec.

Definition binary_substitutions : list (string * string) :=
  [ ("default=no", "default=0"); ("default=yes", "default=1");
    ("housing=no", "housing=0"); ("housing=yes", "housing=1");
    ("loan=no", "loan=0"); ("loan=yes", "loan=1") ].

Definition substitute (name : string) (sub : string * string) : string :=
  if PyStr.contains (fst sub) name
  then PyStr.replace name (fst sub) (snd sub)
  else name.

Definition canonicalize (name : string) : string :=
  fold_left substitute binary_substitutions name.

End RenameSpec.

(** ** Exceptions and outcomes *)

Inductive exn : Type :=
| FileNotFoundError
| IsADirectoryError
| PermissionError
| ParserError
| KeyError
| ValueError
| TypeError.

Inductive outcome (A : Type) : Type :=
| Return (a : A)
| Raise (e : exn).
Arguments Return {A} a.
Arguments Raise {A} e.

Definition obind {A B : Type} (m : outcome A) (k : A -> outcome B) : outcome B :=
  match m with
  | Return a => k a
  | Raise e => Raise e
  end.

Declare Scope outcome_scope.
Delimit Scope outcome_scope with outcome.
Notation "x <- m ;; k" := (obind m (fun x => k))
  (at level 61, m at next level, right associativity) : outcome_scope.

(** ** Data model: pandas columns and frames *)

(** The float64 arithmetic of the numeric columns.  Its operations are kept
    abstract: the development relies on none of their rounding behaviour. *)
Class Float64 : Type := {
  float : Type;
  f_nan : float;
  f_zero : float;                      (* the literal 0.0 *)
  f_of_Z : Z -> float;                 (* int64 -> float64 conversion *)
  f_sub : float -> float -> float;
  f_div : float -> float -> float;
  f_ltb : float -> float -> bool;
  f_eqb : float -> float -> bool;      (* IEEE ==, false on NaN *)
  f_isnan : float -> bool;
  f_repr : float -> string             (* str(x) *)
}.

(** int64 wrap-around of numpy integer arithmetic. *)
Definition wrap64 (z : Z) : Z :=
  ((z + 2 ^ 63) mod 2 ^ 64 - 2 ^ 63)%Z.

Section Frames.
Context {FL : Float64}.

(** A column as [read_csv] types it: int64, float64 (NaN for a missing
    cell) or object (strings, [None] for a missing cell). *)
Inductive series : Type :=
| SInt (xs : list Z)
| SFloat (xs : list float)
| SObj (xs : list (option string)).

(** A Python scalar taken out of a column ([min()], [max()]). *)
Inductive scalar : Type :=
| VInt (z : Z)
| VFloat (x : float)
| VStr (s : string).

(** One cell of a column, for stating properties row by row. *)
Inductive cell : Type :=
| CInt (z : Z)
| CFloat (x : float)
| CStr (s : string)
| CMissing.

Definition cells (s : series) : list cell :=
  match s with
  | SInt xs => map CInt xs
  | SFloat xs => map CFloat xs
  | SObj xs => map (fun o => match o with Some v => CStr v | None => CMissing end) xs
  end.

(** A DataFrame: the number of rows of its index and its labelled columns,
    in order.  pandas allows a label to occur more than once. *)
Record frame : Type := mkFrame {
  nrows : nat;
  cols : list (string * series)
}.

Definition columns (df : frame) : list string := map fst (cols df).

(** [col in df.columns] *)
Definition has_column (df : frame) (col : string) : bool :=
  existsb (String.eqb col) (columns df).

(** The columns labelled [col], in frame order ([df[col]] is a Series when
    there is exactly one, a DataFrame when there are several). *)
Definition select (df : frame) (col : string) : list series :=
  map snd (filter (fun p => String.eqb col (fst p)) (cols df)).

(** The column a label selects, when it selects one. *)
Definition column_of (df : frame) (col : string) : series :=
  match select df col with
  | s :: _ => s
  | [] => SObj []
  end.

(** [df[col] = s] for a label that is present: every column carrying the
    label is replaced in place. *)
Definition setitem (df : frame) (col : string) (s : series) : frame :=
  mkFrame (nrows df)
          (map (fun p => if String.eqb col (fst p) then (fst p, s) else p) (cols df)).

(** The frame with every label [l] replaced by [f l]. *)
Definition relabel (df : frame) (f : string -> string) : frame :=
  mkFrame (nrows df) (map (fun p => (f (fst p), snd p)) (cols df)).

(** [df.rename(columns=mapper)]: a label that is a key of the dictionary is
    replaced by its value, any other label is kept. *)
Definition rename (df : frame) (mapper : dict) : frame :=
  relabel df (fun l => dict_get mapper l l).

(** ** Step 2: the label column *)

(** [{'yes': 1, 'no': 0}.get(v)] *)
Definition label_dict (v : string) : option Z :=
  if String.eqb v "yes" then Some 1%Z
  else if String.eqb v "no" then Some 0%Z
  else None.

(** The dictionary lookup for each cell: numeric cells are no key of the
    dictionary. *)
Definition label_lookup (s : series) : list (option Z) :=
  match s with
  | SInt xs => map (fun _ => None) xs
  | SFloat xs => map (fun _ => None) xs
  | SObj xs => map (fun o => match o with Some v => label_dict v | None => None end) xs
  end.

Definition is_some {A : Type} (o : option A) : bool :=
  match o with Some _ => true | None => false end.

(** [Series.map(dict)]: an int64 column when every cell is mapped, else a
    float64 column with NaN for the cells that are not. *)
Definition series_map_labels (s : series) : series :=
  let looked := label_lookup s in
  if forallb is_some looked
  then SInt (map (fun o => match o with Some z => z | None => 0%Z end) looked)
  else SFloat (map (fun o => match o with Some z => f_of_Z z | None => f_nan end) looked).

(** Lines 48-52.  With two columns labelled 'class', [df['class']] is a
    DataFrame and the call of [.map] with a dictionary raises. *)
Definition prepare_labels (df : frame) : outcome frame :=
  let df := rename df [("y", "class")] in
  if has_column df "class" then
    match select df "class" with
    | [s] => Return (setitem df "class" (series_map_labels s))
    | _ => Raise TypeError
    end
  else Return df.

(** The cell holds the number [z], as an int or as the float it converts to. *)
Definition is_number (z : Z) (c : cell) : Prop :=
  c = CInt z \/ c = CFloat (f_of_Z z).

(** The cell holds the missing value, NaN. *)
Definition is_missing (c : cell) : Prop := c = CFloat f_nan.

Definition label_of_cell (c : cell) : option Z :=
  match c with
  | CStr v => label_dict v
  | _ => None
  end.

(** The column is an int64 or a float64 column. *)
Definition numeric_dtype (s : series) : Prop :=
  match s with
  | SInt _ => True
  | SFloat _ => True
  | SObj _ => False
  end.

Definition numeric_dtypeb (s : series) : bool :=
  match s with
  | SObj _ => false
  | _ => true
  end.

(** The column is a float64 column. *)
Definition float_dtype (s : series) : Prop :=
  match s with
  | SFloat _ => True
  | _ => False
  end.

(** The renaming of line 48 on one label. *)
Definition y_class (l : string) : string :=
  if String.eqb l "y" then "class" else l.

(** ** Step 3: min-max normalisation *)

Definition f_min (a b : float) : float := if f_ltb b a then b else a.
Definition f_max (a b : float) : float := if f_ltb a b then b else a.
Definition s_min (a b : string) : string := if String.ltb b a then b else a.
Definition s_max (a b : string) : string := if String.ltb a b then b else a.

(** The strings of an object column, when no cell is missing. *)
Fixpoint all_present (xs : list (option string)) : option (list string) :=
  match xs with
  | [] => Some []
  | None :: _ => None
  | Some v :: r => option_map (cons v) (all_present r)
  end.

(** The reduction behind [Series.min()] and [Series.max()]: NaN cells are
    skipped, an empty reduction gives NaN, and an object column that mixes
    strings with missing cells cannot be compared. *)
Definition series_reduce (fz : Z -> Z -> Z) (ff : float -> float -> float)
           (fs : string -> string -> string) (s : series) : outcome scalar :=
  match s with
  | SInt [] => Return (VFloat f_nan)
  | SInt (x :: r) => Return (VInt (fold_left fz r x))
  | SFloat xs =>
      match filter (fun x => negb (f_isnan x)) xs with
      | [] => Return (VFloat f_nan)
      | x :: r => Return (VFloat (fold_left ff r x))
      end
  | SObj [] => Return (VFloat f_nan)
  | SObj xs =>
      match all_present xs with
      | Some (x :: r) => Return (VStr (fold_left fs r x))
      | _ => Raise TypeError
      end
  end.

Definition series_min : series -> outcome scalar := series_reduce Z.min f_min s_min.
Definition series_max : series -> outcome scalar := series_reduce Z.max f_max s_max.

(** [a != b] on two scalars *)
Definition scalar_ne (a b : scalar) : bool :=
  match a, b with
  | VInt x, VInt y => negb (Z.eqb x y)
  | VFloat x, VFloat y => negb (f_eqb x y)
  | VInt x, VFloat y => negb (f_eqb (f_of_Z x) y)
  | VFloat x, VInt y => negb (f_eqb x (f_of_Z y))
  | VStr x, VStr y => negb (String.eqb x y)
  | _, _ => true
  end.

(** [a - b] on two scalars *)
Definition scalar_sub (a b : scalar) : outcome scalar :=
  match a, b with
  | VInt x, VInt y => Return (VInt (wrap64 (x - y)))
  | VFloat x, VFloat y => Return (VFloat (f_sub x y))
  | VInt x, VFloat y => Return (VFloat (f_sub (f_of_Z x) y))
  | VFloat x, VInt y => Return (VFloat (f_sub x (f_of_Z y)))
  | _, _ => Raise TypeError
  end.

(** [column - v], element by element *)
Definition series_sub (s : series) (v : scalar) : outcome series :=
  match s, v with
  | SInt xs, VInt m => Return (SInt (map (fun x => wrap64 (x - m)) xs))
  | SInt xs, VFloat m => Return (SFloat (map (fun x => f_sub (f_of_Z x) m) xs))
  | SFloat xs, VInt m => Return (SFloat (map (fun x => f_sub x (f_of_Z m)) xs))
  | SFloat xs, VFloat m => Return (SFloat (map (fun x => f_sub x m) xs))
  | SObj [], VInt _ => Return (SObj [])
  | SObj [], VFloat _ => Return (SObj [])
  | _, _ => Raise TypeError
  end.

(** [column / v], true division, element by element *)
Definition series_div (s : series) (v : scalar) : outcome series :=
  match s, v with
  | SInt xs, VInt d => Return (SFloat (map (fun x => f_div (f_of_Z x) (f_of_Z d)) xs))
  | SInt xs, VFloat d => Return (SFloat (map (fun x => f_div (f_of_Z x) d) xs))
  | SFloat xs, VInt d => Return (SFloat (map (fun x => f_div x (f_of_Z d)) xs))
  | SFloat xs, VFloat d => Return (SFloat (map (fun x => f_div x d) xs))
  | SObj [], VInt _ => Return (SObj [])
  | SObj [], VFloat _ => Return (SObj [])
  | _, _ => Raise TypeError
  end.

(** One iteration of the loop of lines 63-71.  Beside the frame it returns
    the divisions it executed, each as the column and its divisor.  With a
    label carried by several columns, [max_val != min_val] is a Series and
    testing it raises. *)
Definition normalize_column (df : frame) (col : string)
  : outcome (frame * list (string * scalar)) :=
  if has_column df col then
    match select df col with
    | [s] =>
        (min_val <- series_min s ;;
         max_val <- series_max s ;;
         if scalar_ne max_val min_val then
           num <- series_sub s min_val ;;
           den <- scalar_sub max_val min_val ;;
           quo <- series_div num den ;;
           Return (setitem df col quo, [(col, den)])
         else
           Return (setitem df col (SFloat (repeat f_zero (nrows df))), []))%outcome
    | _ => Raise ValueError
    end
  else Return (df, []).

(** The loop [for col in numeric_cols]. *)
Fixpoint normalize_columns (cs : list string) (df : frame)
  : outcome (frame * list (string * scalar)) :=
  match cs with
  | [] => Return (df, [])
  | col :: rest =>
      (r <- normalize_column df col ;;
       r' <- normalize_columns rest (fst r) ;;
       Return (fst r', (snd r ++ snd r')%list))%outcome
  end.

(** ** Step 4: one-hot encoding *)

(** Insertion of a value into a sorted list without repetition. *)
Fixpoint insert_level {A : Type} (ltb eqb : A -> A -> bool) (x : A) (l : list A)
  : list A :=
  match l with
  | [] => [x]
  | y :: r =>
      if eqb x y then l
      else if ltb x y then x :: l
      else y :: insert_level ltb eqb x r
  end.

(** The sorted distinct values of a column: the categories pandas
    factorises it into. *)
Definition levels_of {A : Type} (ltb eqb : A -> A -> bool) (l : list A) : list A :=
  fold_right (insert_level ltb eqb) [] l.

Fixpoint present_strings (xs : list (option string)) : list string :=
  match xs with
  | [] => []
  | Some v :: r => v :: present_strings r
  | None :: r => present_strings r
  end.

Definition indicator (b : bool) : Z := if b then 1%Z else 0%Z.

(** [_get_dummies_1d(column, prefix, prefix_sep='_', dtype=int)]: one int
    column per level, named [f"{prefix}_{level}"]; a missing cell belongs
    to no level. *)
Definition get_dummies_1d (s : series) (prefix : string) : list (string * series) :=
  match s with
  | SInt xs =>
      map (fun v => (prefix ++ "_" ++ PyStr.of_Z v,
                     SInt (map (fun x => indicator (Z.eqb x v)) xs)))
          (levels_of Z.ltb Z.eqb xs)
  | SFloat xs =>
      map (fun v => (prefix ++ "_" ++ f_repr v,
                     SInt (map (fun x => indicator (f_eqb x v)) xs)))
          (levels_of f_ltb f_eqb (filter (fun x => negb (f_isnan x)) xs))
  | SObj xs =>
      map (fun v => (prefix ++ "_" ++ v,
                     SInt (map (fun o => match o with
                                         | Some x => indicator (String.eqb x v)
                                         | None => 0%Z
                                         end) xs)))
          (levels_of String.ltb String.eqb (present_strings xs))
  end.

Definition mem (x : string) (l : list string) : bool := existsb (String.eqb x) l.

(** [data[columns]] for a list of labels: KeyError when a label is absent. *)
Fixpoint select_many (df : frame) (columns : list string)
  : outcome (list (string * series)) :=
  match columns with
  | [] => Return []
  | col :: rest =>
      if has_column df col then
        (more <- select_many df rest ;;
         Return (filter (fun p => String.eqb col (fst p)) (cols df) ++ more)%list)%outcome
      else Raise KeyError
  end.

(** [data.drop(columns, axis=1)] *)
Definition drop (df : frame) (columns : list string) : frame :=
  mkFrame (nrows df) (filter (fun p => negb (mem (fst p) columns)) (cols df)).

(** [pd.get_dummies(df, columns=columns, prefix=prefix, dtype=int)]: the
    columns that are not encoded come first, then the indicator columns of
    each encoded column, in the order of [columns]. *)
Definition get_dummies (df : frame) (columns prefix : list string) : outcome frame :=
  (data_to_encode <- select_many df columns ;;
   if negb (Nat.eqb (List.length prefix) (List.length data_to_encode))
   then Raise ValueError
   else
     Return (mkFrame (nrows df)
               (cols (drop df columns) ++
                flat_map (fun pp => get_dummies_1d (snd (fst pp)) (snd pp))
                         (combine data_to_encode prefix))%list))%outcome.

(** ** Steps 6 and 7: missing columns and strict reindexing *)

(** [[col for col in target if col not in present_columns]] *)
Definition missing_from (present_columns target : list string) : list string :=
  filter (fun col => negb (mem col present_columns)) target.

Fixpoint has_duplicates (l : list string) : bool :=
  match l with
  | [] => false
  | x :: r => mem x r || has_duplicates r
  end.

(** [df.reindex(columns=target, fill_value=fill_value)]: pandas refuses to
    reindex an axis with duplicate labels; a label of [target] that the
    frame lacks gives an int column of [fill_value]. *)
Definition reindex (df : frame) (target : list string) (fill_value : Z) : outcome frame :=
  if has_duplicates (columns df) then Raise ValueError
  else
    Return (mkFrame (nrows df)
              (map (fun col =>
                      (col, match select df col with
                            | s :: _ => s
                            | [] => SInt (repeat fill_value (nrows df))
                            end))
                   target)).

End Frames.

(** ** The host: files, the console and the interpreter *)

(** What may sit at a path beside a file that can be read: a directory, or
    a file that the process may not read. *)
Inductive obstacle : Type :=
| Directory
| Unreadable.

(** The exception that opening such a path for reading raises. *)
Definition open_error (o : obstacle) : exn :=
  match o with
  | Directory => IsADirectoryError
  | Unreadable => PermissionError
  end.

(** What the script takes from its environment: the CSV reader and writer
    of pandas as functions of the file text, the paths that hold something
    else than a readable file, and the iteration order of a Python [set] of
    strings, which depends on the hash seed of the process while its members
    do not. *)
Class Host {FL : Float64} : Type := {
  parse_csv : string -> outcome frame;
  format_csv : frame -> string;
  obstacle_at : string -> option obstacle;
  set_layout : nat -> list string -> list string;
  set_layout_In : forall seed l x, In x (set_layout seed l) <-> In x l
}.

Record world : Type := mkWorld {
  fs : string -> option string;        (* the readable files, by path *)
  stdout : list string;                (* the printed lines, oldest first *)
  hashseed : nat
}.

(** Computations of the script: a result or an exception, and the world
    they leave. *)
Definition M (A : Type) : Type := world -> outcome A * world.

Definition ret {A : Type} (a : A) : M A := fun w => (Return a, w).

Definition bind {A B : Type} (m : M A) (k : A -> M B) : M B :=
  fun w => match m w with
           | (Return a, w') => k a w'
           | (Raise e, w') => (Raise e, w')
           end.

Definition lift {A : Type} (o : outcome A) : M A := fun w => (o, w).

Declare Scope script_scope.
Delimit Scope script_scope with script.
Notation "x <- m ;; k" := (bind m (fun x => k))
  (at level 61, m at next level, right associativity) : script_scope.
Notation "m ;;; k" := (bind m (fun _ => k))
  (at level 61, right associativity) : script_scope.

Definition print (line : string) : M unit :=
  fun w => (Return tt, mkWorld (fs w) (stdout w ++ [line])%list (hashseed w)).

Definition get_hashseed : M nat := fun w => (Return (hashseed w), w).

(** [try: body except FileNotFoundError: handler] *)
Definition try_except_FileNotFoundError {A : Type} (body handler : M A) : M A :=
  fun w => match body w with
           | (Raise FileNotFoundError, w') => handler w'
           | r => r
           end.

(** The world after some more lines were printed. *)
Definition printed (w : world) (lines : list string) : world :=
  mkWorld (fs w) (stdout w ++ lines) (hashseed w).

Definition write_file (path text : string) : M unit :=
  fun w => (Return tt,
            mkWorld (fun p => if String.eqb p path then Some text else fs w p)
                    (stdout w) (hashseed w)).

(** ** [process_data] and the entry point *)

Section Script.
Context {FL : Float64} {HO : Host}.

(** [pd.read_csv(path, sep=';', ...)]: whatever the parser makes of the
    text of a readable file; IsADirectoryError or PermissionError when the
    path holds a directory or a file that may not be read; FileNotFoundError
    when nothing is at [path]. *)
Definition read_csv (path : string) : M frame :=
  fun w => match fs w path with
           | Some text => (parse_csv text, w)
           | None =>
               match obstacle_at path with
               | Some o => (Raise (open_error o), w)
               | None => (Raise FileNotFoundError, w)
               end
           end.

(** What the reader makes of a path. *)
Definition load (w : world) (input_path : string) : outcome frame :=
  match fs w input_path with
  | Some text => parse_csv text
  | None =>
      match obstacle_at input_path with
      | Some o => Raise (open_error o)
      | None => Raise FileNotFoundError
      end
  end.

(** [os.path.exists(path)]: a directory and an unreadable file exist too. *)
Definition path_exists (path : string) : M bool :=
  fun w => (Return (is_some (fs w path) || is_some (obstacle_at path)), w).

(** [df.to_csv(path, index=False)] *)
Definition to_csv (df : frame) (path : string) : M unit :=
  write_file path (format_csv df).

Definition nl : string := String (ascii_of_nat 10) EmptyString.

(** What a block of the function body does with the control: it executes
    a [return], or it falls through with a value. *)
Inductive flow (A B : Type) : Type :=
| Returned (a : A)
| Continue (b : B).
Arguments Returned {A B} a.
Arguments Continue {A B} b.

(** The loop [for col in missing_columns: print(f"  [MISSING] {col}")]. *)
Fixpoint print_missing (missing_columns : list string) : M unit :=
  match missing_columns with
  | [] => ret tt
  | col :: rest => (print ("  [MISSING] " ++ col) ;;; print_missing rest)%script
  end.

(** Step 6, lines 108-120: the list of missing columns and its report. *)
Definition log_missing_columns (df_renamed : frame) : M (list string) :=
  (seed <- get_hashseed ;;
   let present_columns := set_layout seed (columns df_renamed) in
   let missing_columns := missing_from present_columns target_columns in
   match missing_columns with
   | _ :: _ =>
       print (nl ++ PyStr.times "=" 50) ;;;
       print ("WARNING: " ++ PyStr.of_nat (List.length missing_columns)
              ++ " columns from the target header are MISSING in the data.") ;;;
       print "These will be automatically created and filled with 0s:" ;;;
       print (PyStr.times "-" 50) ;;;
       print_missing missing_columns ;;;
       print (PyStr.times "=" 50 ++ nl) ;;;
       ret missing_columns
   | [] =>
       print (nl ++ "SUCCESS: All target columns are present in the input data." ++ nl) ;;;
       ret missing_columns
   end)%script.

(** The lines that step 6 prints for a given list of missing columns. *)
Definition missing_report (missing_columns : list string) : list string :=
  match missing_columns with
  | _ :: _ =>
      app [ nl ++ PyStr.times "=" 50;
            "WARNING: " ++ PyStr.of_nat (List.length missing_columns)
              ++ " columns from the target header are MISSING in the data.";
            "These will be automatically created and filled with 0s:";
            PyStr.times "-" 50 ]
          (app (map (fun col => "  [MISSING] " ++ col) missing_columns)
               [ PyStr.times "=" 50 ++ nl ])
  | [] => [ nl ++ "SUCCESS: All target columns are present in the input data." ++ nl ]
  end.

(** The messages of lines 41, 45 and 128. *)
Definition reading_line (input_path : string) : string :=
  "Reading data from: " ++ input_path.

Definition not_found_line (input_path : string) : string :=
  "Error: The file '" ++ input_path ++ "' was not found. Please check the file path.".

Definition saved_line (output_filename : string) : string :=
  "Successfully saved transformed data to " ++ output_filename.

(** Steps 6 to 8 and the return, lines 106-130: what the Schema Enforcer
    does with the renamed frame. *)
Definition enforce_schema (df_renamed : frame) (output_filename : string)
  : M (option string) :=
  (_ <- log_missing_columns df_renamed ;;
   df_final <- lift (reindex df_renamed target_columns 0) ;;
   to_csv df_final output_filename ;;;
   print (saved_line output_filename) ;;;
   ret (Some (PyStr.join "," (columns df_final))))%script.

Definition process_data (input_path output_filename : string) : M (option string) :=
  (print (reading_line input_path) ;;;
   r <- try_except_FileNotFoundError
          (df <- read_csv input_path ;; ret (Continue df))
          (print (not_found_line input_path) ;;;
           ret (Returned None)) ;;
   match r with
   | Returned v => ret v
   | Continue df =>
       df <- lift (prepare_labels df) ;;
       print "Normalizing numerical columns..." ;;;
       normalized <- lift (normalize_columns numeric_cols df) ;;
       let df := fst normalized in
       df_encoded <- lift (get_dummies df categorical_cols categorical_cols) ;;
       let column_mapping := column_mapping (columns df_encoded) in
       let df_renamed := rename df_encoded column_mapping in
       enforce_schema df_renamed output_filename
   end)%script.

(** [if result_header:] *)
Definition truthy (result_header : option string) : bool :=
  match result_header with
  | Some s => negb (String.eqb s EmptyString)
  | None => false
  end.

Definition passed_line : string := "Header verification: PASSED".
Definition failed_line : string :=
  "Header verification: FAILED (Output does not match target)".

(** The two file names of the [__main__] block. *)
Definition input_file : string := "bank-additional-full.csv".
Definition output_file : string := "dataBank_transformed.csv".

(** The line starts with the letter H. *)
Definition starts_with_H (line : string) : bool :=
  match line with
  | String c _ => Ascii.eqb c "H"
  | EmptyString => false
  end.

(** The [__main__] block. *)
Definition main : M unit :=
  (let input_file := "bank-additional-full.csv" in
   found <- path_exists input_file ;;
   if found then
     result_header <- process_data input_file "dataBank_transformed.csv" ;;
     if truthy result_header then
       if String.eqb (match result_header with Some s => s | None => EmptyString end)
                     expected_header
       then print passed_line
       else print failed_line
     else ret tt
   else
     print ("File not found: " ++ input_file) ;;;
     print "Please ensure 'bank-additional-full.csv' is in the current directory.")%script.

End Script.

(** ** A host to run the script on

    Exact rational arithmetic in the place of float64 and a reader and a
    writer for plain delimited text (no quoting, no decimal numbers): enough
    to execute the model on concrete files. *)

Module Exact.

Definition qfloat : Type := option Q.

Definition q_sub (a b : qfloat) : qfloat :=
  match a, b with
  | Some x, Some y => Some (Qred (x - y))
  | _, _ => None
  end.

Definition q_div (a b : qfloat) : qfloat :=
  match a, b with
  | Some x, Some y => if Qeq_bool y 0 then None else Some (Qred (x / y))
  | _, _ => None
  end.

Definition q_ltb (a b : qfloat) : bool :=
  match a, b with
  | Some x, Some y => negb (Qle_bool y x)
  | _, _ => false
  end.

Definition q_eqb (a b : qfloat) : bool :=
  match a, b with
  | Some x, Some y => Qeq_bool x y
  | _, _ => false
  end.

Definition q_repr (a : qfloat) : string :=
  match a with
  | Some x => PyStr.of_Z (Qnum x) ++ "/" ++ PyStr.of_Z (Zpos (Qden x))
  | None => "nan"
  end.

#[export] Instance exact_float : Float64 := {|
  float := qfloat;
  f_nan := None;
  f_zero := Some 0%Q;
  f_of_Z := fun z => Some (inject_Z z);
  f_sub := q_sub;
  f_div := q_div;
  f_ltb := q_ltb;
  f_eqb := q_eqb;
  f_isnan := fun a => negb (is_some a);
  f_repr := q_repr
|}.

Definition newline : ascii := ascii_of_nat 10.

Definition read_int (s : string) : option Z :=
  if String.eqb s "" || String.eqb s "-" then None
  else option_map Z.of_int (NilZero.int_of_string s).

Fixpoint read_ints (l : list string) : option (list Z) :=
  match l with
  | [] => Some []
  | s :: r =>
      match read_int s, read_ints r with
      | Some z, Some zs => Some (z :: zs)
      | _, _ => None
      end
  end.

(** The dtype inference of the reader: int64 when every cell is an integer,
    object otherwise, an empty cell being a missing value. *)
Definition infer_series (l : list string) : series :=
  match l, read_ints l with
  | _ :: _, Some zs => SInt zs
  | _, _ => SObj (map (fun c => if String.eqb c "" then None else Some c) l)
  end.

Fixpoint enumerate {A : Type} (n : nat) (l : list A) : list (nat * A) :=
  match l with
  | [] => []
  | x :: r => (n, x) :: enumerate (S n) r
  end.

Definition read_text (text : string) : outcome frame :=
  match filter (fun l => negb (String.eqb l "")) (PyStr.split newline text) with
  | [] => Raise ParserError
  | header :: rows =>
      let names := PyStr.split ";" header in
      if has_duplicates names then Raise ParserError
      else
        let table := map (PyStr.split ";") rows in
        Return (mkFrame (List.length rows)
                  (map (fun jn => (snd jn,
                                   infer_series (map (fun row => nth (fst jn) row "") table)))
                       (enumerate 0 names)))
  end.

Definition write_cell (c : cell) : string :=
  match c with
  | CInt z => PyStr.of_Z z
  | CFloat x => match x with Some _ => q_repr x | None => "" end
  | CStr v => v
  | CMissing => ""
  end.

Definition write_text (df : frame) : string :=
  let line := fun i =>
    PyStr.join "," (map (fun p => write_cell (nth i (cells (snd p)) CMissing)) (cols df)) in
  PyStr.join (String newline "")
             (PyStr.join "," (columns df) :: map line (seq 0 (nrows df)))
  ++ String newline "".

(** A layout of a set under a seed: its distinct members, rotated. *)
Definition rotate (seed : nat) (l : list string) : list string :=
  let k := Nat.modulo seed (S (List.length l)) in
  (skipn k l ++ firstn k l)%list.

Definition layout (seed : nat) (l : list string) : list string :=
  rotate seed (nodup string_dec l).

Lemma layout_In (seed : nat) (l : list string) (x : string) :
  In x (layout seed l) <-> In x l.
Proof.
  unfold layout, rotate.
  rewrite in_app_iff, <- (nodup_In string_dec l x).
  set (k := Nat.modulo seed _). set (d := nodup string_dec l).
  rewrite <- (firstn_skipn k d) at 3. rewrite in_app_iff. tauto.
Qed.

(** The paths of the host that hold no readable file: a directory and a
    file without read permission. *)
Definition places (path : string) : option obstacle :=
  if String.eqb path "reports" then Some Directory
  else if String.eqb path "sealed.csv" then Some Unreadable
  else None.

#[export] Instance exact_host : Host := {|
  parse_csv := read_text;
  format_csv := write_text;
  obstacle_at := places;
  set_layout := layout;
  set_layout_In := layout_In
|}.

(** A file with every categorical column, a numeric column that varies,
    one that is constant, and the label column. *)
Definition bank_text : string :=
  "age;job;marital;education;default;housing;loan;contact;month;day_of_week;pdays;poutcome;y"
  ++ String newline
  "30;admin.;married;basic.4y;no;yes;no;cellular;may;mon;999;failure;no"
  ++ String newline
  "60;services;single;unknown;unknown;no;yes;telephone;jun;tue;999;success;yes"
  ++ String newline "".

(** A file that has the column job but none of the other categorical
    columns. *)
Definition job_only_text : string :=
  "age;job;y" ++ String newline "30;admin.;no" ++ String newline "60;services;yes"
  ++ String newline "".

(** A processed table: one target column, one column that is no target
    column, and two rows. *)
Definition small_frame : frame :=
  mkFrame 2 [("age", SFloat [Some 0%Q; Some 1%Q]); ("note", SObj [Some "a"; None])].

(** A table with a constant numeric column and a label column. *)
Definition pdays_frame : frame :=
  mkFrame 2 [("pdays", SInt [999%Z; 999%Z]); ("y", SObj [Some "yes"; Some "maybe"])].

(** A world without any file. *)
Definition empty_disk : world := mkWorld (fun _ => None) [] 3.

Definition disk (text : string) : world :=
  mkWorld (fun p => if String.eqb p "bank-additional-full.csv" then Some text else None)
          [] 7.

(** The same input on another run: an older output file is in place, lines
    were printed before, and the hash seed differs. *)
Definition disk_again (text : string) : world :=
  mkWorld (fun p => if String.eqb p "bank-additional-full.csv" then Some text
                    else if String.eqb p "dataBank_transformed.csv" then Some "stale"
                    else None)
          ["an earlier line"] 12.

End Exact.

(** ** The float64 of the machine

    The arithmetic that numpy runs: IEEE-754 binary64, rounding to nearest
    even, as the primitive floats compute it. *)

Module IEEE.

(** int64 -> float64, rounded to nearest even. *)
Definition of_Z (z : Z) : PrimFloat.float :=
  FloatOps.SF2Prim
    (SpecFloat.binary_normalize FloatOps.prec FloatOps.emax z 0 false).

(** A rendering that tells the values apart, as sign, mantissa and binary
    exponent.  Python prints the shortest decimal that reads back as the
    value, which is not modelled: only the label of an indicator column of a
    float categorical column depends on it. *)
Definition repr (x : PrimFloat.float) : string :=
  match FloatOps.Prim2SF x with
  | SpecFloat.S754_zero false => "0.0"
  | SpecFloat.S754_zero true => "-0.0"
  | SpecFloat.S754_infinity false => "inf"
  | SpecFloat.S754_infinity true => "-inf"
  | SpecFloat.S754_nan => "nan"
  | SpecFloat.S754_finite s m e =>
      (if s then "-" else "") ++ PyStr.of_Z (Zpos m) ++ "p" ++ PyStr.of_Z e
  end.

#[export] Instance binary64 : Float64 := {|
  float := PrimFloat.float;
  f_nan := PrimFloat.nan;
  f_zero := PrimFloat.zero;
  f_of_Z := of_Z;
  f_sub := PrimFloat.sub;
  f_div := PrimFloat.div;
  f_ltb := PrimFloat.ltb;
  f_eqb := PrimFloat.eqb;
  f_isnan := PrimFloat.is_nan;
  f_repr := repr
|}.

(** [0 <= w <= 1], false on NaN as every IEEE comparison is. *)
Definition in_unit (w : PrimFloat.float) : bool :=
  PrimFloat.leb PrimFloat.zero w && PrimFloat.leb w PrimFloat.one.

(** The table that [read_csv] makes of a file with the header [age;y] and
    the rows [30;no], [;yes] and [60;yes]: the empty cell makes [age] a
    float64 column with NaN in the second row. *)
Definition age_missing : frame :=
  {| nrows := 3;
     cols := [("age", SFloat [of_Z 30; PrimFloat.nan; of_Z 60]);
              ("y", SObj [Some "no"; Some "yes"; Some "yes"])] |}.

(** The table of a file whose [age] cells are the least int64, 0 and the
    greatest int64: an int64 column. *)
Definition age_wide : frame :=
  {| nrows := 3;
     cols := [("age", SInt [- 2 ^ 63; 0; 2 ^ 63 - 1]%Z);
              ("y", SObj [Some "no"; Some "yes"; Some "yes"])] |}.

End IEEE.

(** ** Tables to run the stages on *)

Module Cases.
Import Exact.

(** The table that [bank_text] parses into. *)
Definition bank_frame : frame :=
  mkFrame 2
    [ ("age", SInt [30%Z; 60%Z]);
      ("job", SObj [Some "admin."; Some "services"]);
      ("marital", SObj [Some "married"; Some "single"]);
      ("education", SObj [Some "basic.4y"; Some "unknown"]);
      ("default", SObj [Some "no"; Some "unknown"]);
      ("housing", SObj [Some "yes"; Some "no"]);
      ("loan", SObj [Some "no"; Some "yes"]);
      ("contact", SObj [Some "cellular"; Some "telephone"]);
      ("month", SObj [Some "may"; Some "jun"]);
      ("day_of_week", SObj [Some "mon"; Some "tue"]);
      ("pdays", SInt [999%Z; 999%Z]);
      ("poutcome", SObj [Some "failure"; Some "success"]);
      ("y", SObj [Some "no"; Some "yes"]) ].

Definition no_frame : frame := mkFrame 0 [].

(** What the encoder makes of it, and the reindexing of that. *)
Definition bank_encoded : frame :=
  match get_dummies bank_frame categorical_cols categorical_cols with
  | Return enc => enc
  | Raise _ => no_frame
  end.

Definition bank_output : frame :=
  match reindex (rename bank_encoded (column_mapping (columns bank_encoded)))
                target_columns 0 with
  | Return out => out
  | Raise _ => no_frame
  end.

(** An encoded table with the indicator columns of the values no and 0 of
    the column default. *)
Definition collision_frame : frame :=
  mkFrame 2 [("default_no", SInt [1%Z; 0%Z]); ("default_0", SInt [0%Z; 1%Z])].

(** A table with one numeric column and one categorical column. *)
Definition age_frame : frame :=
  mkFrame 2 [("age", SInt [30%Z; 60%Z]); ("job", SObj [Some "admin."; None])].

(** A table without any numeric column. *)
Definition job_frame : frame := mkFrame 1 [("job", SObj [Some "admin."])].

End Cases.

(** * Properties *)

(** ** The rename pass *)

Section StringFacts.

Lemma prefix_nil (s : string) : String.prefix EmptyString s = true.
Proof. destruct s; reflexivity. Qed.

Lemma prefix_append (a b : string) : String.prefix a (a ++ b) = true.
Proof.
  induction a as [|c a IH]; simpl.
  - apply prefix_nil.
  - destruct (ascii_dec c c) as [_|N]; [exact IH | contradiction].
Qed.

(** Two prefixes of one string are comparable. *)
Lemma prefix_comparable (s a b : string) :
  String.prefix a s = true -> String.prefix b s = true ->
  String.prefix a b = true \/ String.prefix b a = true.
Proof.
  revert a b; induction s as [|c s IH]; intros a b Ha Hb.
  - destruct a; [left; apply prefix_nil | discriminate].
  - destruct a as [|x a]; [left; apply prefix_nil|].
    destruct b as [|y b]; [right; apply prefix_nil|].
    simpl in Ha, Hb.
    destruct (ascii_dec x c) as [->|]; [|discriminate].
    destruct (ascii_dec y c) as [->|]; [|discriminate].
    simpl. destruct (ascii_dec c c) as [_|N]; [|contradiction].
    apply IH; assumption.
Qed.

(** Once the count is used up, [replace_go] only drops what is left of the
    occurrence it replaced. *)
Lemma replace_go_exhausted (old new a rest : string) :
  PyStr.replace_go old new (Some 0) (String.length a) (a ++ rest) = rest.
Proof.
  induction a as [|c a IH]; simpl.
  - destruct rest; reflexivity.
  - exact IH.
Qed.

(** [s.replace(old, new, 1)] on a string that starts with [old]. *)
Lemma replace_first_at_start (old new rest : string) :
  old <> EmptyString ->
  PyStr.replace_n (old ++ rest) old new 1 = new ++ rest.
Proof.
  intros Hne. destruct old as [|c old]; [contradiction|].
  unfold PyStr.replace_n.
  change ((String c old ++ rest)) with (String c (old ++ rest)).
  cbn [PyStr.replace_go].
  change (String c (old ++ rest)) with (String c old ++ rest).
  rewrite prefix_append.
  cbn [option_map Nat.pred String.length Nat.sub].
  rewrite Nat.sub_0_r, replace_go_exhausted. reflexivity.
Qed.

Lemma append_assoc (a b c : string) : (a ++ b) ++ c = a ++ (b ++ c).
Proof. induction a; simpl; congruence. Qed.

Lemma prefix_append2 (a b c : string) : String.prefix (a ++ b) (a ++ b ++ c) = true.
Proof. rewrite <- append_assoc. apply prefix_append. Qed.

End StringFacts.

Section RenamePass.
Context {FL : Float64}.

Lemma dict_get_set (d : dict) (k v key default : string) :
  dict_get (dict_set d k v) key default =
    if String.eqb key k then v else dict_get d key default.
Proof.
  induction d as [|[k' v'] d IH]; simpl.
  - reflexivity.
  - destruct (String.eqb k k') eqn:E; simpl.
    + apply String.eqb_eq in E; subst k'.
      destruct (String.eqb key k); reflexivity.
    + destruct (String.eqb key k') eqn:E'; [|exact IH].
      apply String.eqb_eq in E'; subst k'.
      rewrite String.eqb_sym, E. reflexivity.
Qed.

(** The dictionary of step 5 sends each of the columns to its final name. *)
Lemma column_mapping_get (columns : list string) (col default : string) :
  In col columns ->
  dict_get (column_mapping columns) col default = final_col col.
Proof.
  unfold column_mapping.
  assert (G : forall d,
    dict_get (fold_left (fun d c => dict_set d c (final_col c)) columns d)
             col default =
    if mem col columns then final_col col else dict_get d col default).
  { induction columns as [|c cs IH]; intros d; simpl; [reflexivity|].
    rewrite IH, dict_get_set.
    destruct (String.eqb col c) eqn:E; simpl.
    - apply String.eqb_eq in E; subst c. destruct (mem col cs); reflexivity.
    - reflexivity. }
  intros Hin. rewrite G.
  replace (mem col columns) with true; [reflexivity|].
  symmetry. unfold mem. apply existsb_exists.
  exists col. split; [exact Hin | apply String.eqb_refl].
Qed.

Lemma rename_column_mapping (df : frame) :
  rename df (column_mapping (columns df)) = relabel df final_col.
Proof.
  unfold rename, relabel. f_equal. apply map_ext_in. intros [l x] Hin.
  cbn [fst snd]. f_equal. apply column_mapping_get.
  unfold columns. apply in_map_iff. exists (l, x). split; [reflexivity|exact Hin].
Qed.

Lemma categorical_prefixes_disjoint :
  forallb (fun p => forallb (fun q =>
      implb (String.prefix (p ++ "_") (q ++ "_")) (String.eqb p q))
    categorical_cols) categorical_cols = true.
Proof. vm_compute. reflexivity. Qed.

Lemma categorical_prefix_unique (col p q : string) :
  In p categorical_cols -> In q categorical_cols ->
  PyStr.startswith col (p ++ "_") = true ->
  PyStr.startswith col (q ++ "_") = true -> p = q.
Proof.
  intros Hp Hq Sp Sq. unfold PyStr.startswith in *.
  pose proof categorical_prefixes_disjoint as D.
  rewrite forallb_forall in D.
  pose proof (D p Hp) as Dp. rewrite forallb_forall in Dp. specialize (Dp q Hq).
  pose proof (D q Hq) as Dq. rewrite forallb_forall in Dq. specialize (Dq p Hp).
  destruct (prefix_comparable col _ _ Sp Sq) as [E|E]; rewrite E in *; simpl in *.
  - apply String.eqb_eq; assumption.
  - symmetry; apply String.eqb_eq; assumption.
Qed.

(** The loop with [break] stops at the only prefix that matches. *)
Lemma prefix_pass_found (l : list string) (col p : string) :
  In p l ->
  (forall q, In q l -> PyStr.startswith col (q ++ "_") = true -> q = p) ->
  PyStr.startswith col (p ++ "_") = true ->
  prefix_pass l col = PyStr.replace_n col (p ++ "_") (p ++ "=") 1.
Proof.
  induction l as [|q l IH]; intros Hin Huniq Hp; [contradiction|].
  simpl. destruct (PyStr.startswith col (q ++ "_")) eqn:Hq.
  - rewrite (Huniq q (or_introl eq_refl) Hq). reflexivity.
  - destruct Hin as [->|Hin]; [congruence|].
    apply IH; auto. intros r Hr; apply Huniq; right; exact Hr.
Qed.

Lemma prefix_pass_none (l : list string) (col : string) :
  (forall p, In p l -> PyStr.startswith col (p ++ "_") = false) ->
  prefix_pass l col = col.
Proof.
  induction l as [|q l IH]; intros H; [reflexivity|].
  simpl. rewrite (H q (or_introl eq_refl)). apply IH.
  intros p Hp; apply H; right; exact Hp.
Qed.

(** C2. In the rename pass a column name that begins with a categorical
    column name followed by an underscore has that first occurrence replaced
    by the column name followed by an equals sign; no name begins with two
    such prefixes, so the first match is the only one; a name with no such
    prefix is left alone; the six binary substitutions are then applied in
    order, each whenever its left-hand side occurs; and the renamed table
    carries, column by column, the names so obtained. *)
Theorem C2_rename_pass :
  (forall p rest, In p categorical_cols ->
     prefix_pass categorical_cols (p ++ "_" ++ rest) = p ++ "=" ++ rest) /\
  (forall col p q, In p categorical_cols -> In q categorical_cols ->
     PyStr.startswith col (p ++ "_") = true ->
     PyStr.startswith col (q ++ "_") = true -> p = q) /\
  (forall col,
     (forall p, In p categorical_cols -> PyStr.startswith col (p ++ "_") = false) ->
     prefix_pass categorical_cols col = col) /\
  (forall col,
     final_col col = RenameSpec.canonicalize (prefix_pass categorical_cols col)) /\
  (forall df : frame,
     columns (rename df (column_mapping (columns df))) = map final_col (columns df)).
Proof.
  split; [|split; [|split; [|split]]].
  - intros p rest Hp.
    assert (S : PyStr.startswith (p ++ "_" ++ rest) (p ++ "_") = true).
    { unfold PyStr.startswith. rewrite <- append_assoc. apply prefix_append. }
    rewrite (prefix_pass_found categorical_cols _ p Hp); [| |exact S].
    + rewrite <- !append_assoc. apply replace_first_at_start.
      destruct p; discriminate.
    + intros q Hq Sq. exact (categorical_prefix_unique _ q p Hq Hp Sq S).
  - exact categorical_prefix_unique.
  - intros col H. apply prefix_pass_none; exact H.
  - intros col. reflexivity.
  - intros df. rewrite rename_column_mapping.
    unfold columns, relabel; simpl. rewrite !map_map. reflexivity.
Qed.

End RenamePass.

(** ** Frames: selecting and assigning columns *)

Section FrameFacts.
Context {FL : Float64}.

Lemma columns_setitem (df : frame) (c : string) (s : series) :
  columns (setitem df c s) = columns df.
Proof.
  unfold columns, setitem; simpl. rewrite map_map.
  apply map_ext; intros [l x]; simpl. destruct (String.eqb c l); reflexivity.
Qed.

Lemma nrows_setitem (df : frame) (c : string) (s : series) :
  nrows (setitem df c s) = nrows df.
Proof. reflexivity. Qed.

Lemma select_setitem_same (df : frame) (c : string) (s : series) :
  select (setitem df c s) c = map (fun _ => s) (select df c).
Proof.
  unfold select, setitem; simpl.
  induction (cols df) as [|[l x] r IH]; simpl; [reflexivity|].
  destruct (String.eqb c l) eqn:E; simpl; rewrite E; simpl; rewrite IH; reflexivity.
Qed.

Lemma select_setitem_other (df : frame) (c col : string) (s : series) :
  c <> col -> select (setitem df c s) col = select df col.
Proof.
  intros Hne. unfold select, setitem; simpl.
  induction (cols df) as [|[l x] r IH]; simpl; [reflexivity|].
  destruct (String.eqb c l) eqn:E; simpl.
  - apply String.eqb_eq in E; subst l.
    destruct (String.eqb col c) eqn:E'.
    + apply String.eqb_eq in E'; congruence.
    + exact IH.
  - destruct (String.eqb col l); simpl; rewrite IH; reflexivity.
Qed.

Lemma has_column_select (df : frame) (col : string) :
  has_column df col = true <-> select df col <> [].
Proof.
  unfold has_column, select, columns.
  induction (cols df) as [|[l x] r IH]; simpl.
  - split; [discriminate | congruence].
  - destruct (String.eqb col l); simpl.
    + split; [discriminate | reflexivity].
    + exact IH.
Qed.

Lemma has_column_In (df : frame) (col : string) :
  has_column df col = true <-> In col (columns df).
Proof.
  unfold has_column. rewrite existsb_exists. split.
  - intros [x [Hx E]]. apply String.eqb_eq in E. subst; exact Hx.
  - intros H. exists col. split; [exact H | apply String.eqb_refl].
Qed.

End FrameFacts.

(** ** The normaliser *)

Section Normalizer.
Context {FL : Float64}.

(** An iteration of the loop touches the column it is about and no other. *)
Lemma normalize_column_other (df df1 : frame) (c col : string)
      (d : list (string * scalar)) :
  c <> col ->
  normalize_column df c = Return (df1, d) ->
  select df1 col = select df col /\ nrows df1 = nrows df /\
  forall e, In e d -> fst e = c.
Proof.
  intros Hne. unfold normalize_column.
  destruct (has_column df c).
  2:{ intros H; inversion H; subst. repeat split; auto. intros e []. }
  destruct (select df c) as [|s [|s' r]]; try discriminate.
  destruct (series_min s) as [mn|]; simpl; try discriminate.
  destruct (series_max s) as [mx|]; simpl; try discriminate.
  destruct (scalar_ne mx mn).
  - destruct (series_sub s mn) as [num|]; simpl; try discriminate.
    destruct (scalar_sub mx mn) as [den|]; simpl; try discriminate.
    destruct (series_div num den) as [quo|]; simpl; try discriminate.
    intros H; inversion H; subst.
    repeat split; [apply select_setitem_other; exact Hne|].
    intros e [<-|[]]; reflexivity.
  - intros H; inversion H; subst.
    repeat split; [apply select_setitem_other; exact Hne|].
    intros e [].
Qed.

Lemma normalize_columns_other (cs : list string) (col : string) :
  ~ In col cs ->
  forall df df' d, normalize_columns cs df = Return (df', d) ->
  select df' col = select df col /\ nrows df' = nrows df /\
  ~ In col (map fst d).
Proof.
  induction cs as [|c cs IH]; intros Hnot df df' d; simpl.
  - intros H; inversion H; subst. repeat split; auto.
  - destruct (normalize_column df c) as [[df1 d1]|] eqn:E1; simpl; try discriminate.
    destruct (normalize_columns cs df1) as [[df2 d2]|] eqn:E2; simpl; try discriminate.
    intros H; inversion H; subst.
    assert (Hc : c <> col) by (intros ->; apply Hnot; left; reflexivity).
    destruct (normalize_column_other _ _ _ _ _ Hc E1) as (S1 & N1 & D1).
    destruct (IH (fun H => Hnot (or_intror H)) _ _ _ E2) as (S2 & N2 & D2).
    repeat split; [congruence | congruence |].
    rewrite map_app, in_app_iff. intros [Hin|Hin]; [|exact (D2 Hin)].
    apply in_map_iff in Hin. destruct Hin as [e [Ee He]].
    apply D1 in He. congruence.
Qed.

(** The iteration on a column whose extremes compare equal. *)
Lemma normalize_column_constant (df : frame) (col : string) (s : series)
      (mn mx : scalar) :
  select df col = [s] ->
  series_min s = Return mn -> series_max s = Return mx ->
  scalar_ne mx mn = false ->
  normalize_column df col =
    Return (setitem df col (SFloat (repeat f_zero (nrows df))), []).
Proof.
  intros Hs Hmn Hmx Hne. unfold normalize_column.
  assert (H : has_column df col = true).
  { apply has_column_select. rewrite Hs. discriminate. }
  rewrite H, Hs, Hmn; simpl. rewrite Hmx; simpl. rewrite Hne. reflexivity.
Qed.

Lemma normalize_columns_constant (cs : list string) (col : string) :
  NoDup cs -> In col cs ->
  forall (df df' : frame) (s : series) (mn mx : scalar) d,
  select df col = [s] ->
  series_min s = Return mn -> series_max s = Return mx ->
  scalar_ne mx mn = false ->
  normalize_columns cs df = Return (df', d) ->
  select df' col = [SFloat (repeat f_zero (nrows df))] /\
  ~ In col (map fst d).
Proof.
  induction cs as [|c cs IH]; intros Hnd Hin df df' s mn mx d Hs Hmn Hmx Hne;
    [contradiction|].
  inversion Hnd as [|? ? Hnotin Hnd']; subst.
  simpl.
  destruct (normalize_column df c) as [[df1 d1]|] eqn:E1; simpl; try discriminate.
  destruct (normalize_columns cs df1) as [[df2 d2]|] eqn:E2; simpl; try discriminate.
  intros H; inversion H; subst.
  destruct (string_dec c col) as [->|Hc].
  - rewrite (normalize_column_constant _ _ _ _ _ Hs Hmn Hmx Hne) in E1.
    inversion E1; subst.
    destruct (normalize_columns_other cs col Hnotin _ _ _ E2) as (S2 & N2 & D2).
    split; [|exact D2].
    rewrite S2, select_setitem_same, Hs. reflexivity.
  - destruct Hin as [->|Hin]; [congruence|].
    destruct (normalize_column_other _ _ _ _ _ Hc E1) as (S1 & N1 & D1).
    rewrite <- S1 in Hs.
    destruct (IH Hnd' Hin _ _ _ _ _ _ Hs Hmn Hmx Hne E2) as (S2 & D2).
    split; [rewrite S2, N1; reflexivity|].
    rewrite map_app, in_app_iff. intros [Hi|Hi]; [|exact (D2 Hi)].
    apply in_map_iff in Hi. destruct Hi as [e [Ee He]].
    apply D1 in He. congruence.
Qed.

Lemma numeric_cols_NoDup : NoDup numeric_cols.
Proof.
  unfold numeric_cols.
  repeat (constructor; [simpl; intuition discriminate|]). constructor.
Qed.

(** C4. For a numeric column of the table whose minimum and maximum compare
    equal, the iteration of the normaliser assigns 0.0 to every row and
    executes no division; and when the loop over the numeric columns ends,
    the column holds 0.0 in every row and no division was executed for it. *)
Theorem C4_constant_column_zero (df : frame) (col : string) (s : series)
        (mn mx : scalar) :
  In col numeric_cols ->
  select df col = [s] ->
  series_min s = Return mn -> series_max s = Return mx ->
  scalar_ne mx mn = false ->
  normalize_column df col =
    Return (setitem df col (SFloat (repeat f_zero (nrows df))), []) /\
  (forall df' divisions,
     normalize_columns numeric_cols df = Return (df', divisions) ->
     exists zeros,
       select df' col = [zeros] /\
       cells zeros = repeat (CFloat f_zero) (nrows df) /\
       ~ In col (map fst divisions)).
Proof.
  intros Hin Hs Hmn Hmx Hne. split.
  - exact (normalize_column_constant _ _ _ _ _ Hs Hmn Hmx Hne).
  - intros df' d Hrun.
    destruct (normalize_columns_constant numeric_cols col numeric_cols_NoDup Hin
                _ _ _ _ _ _ Hs Hmn Hmx Hne Hrun) as (S & D).
    exists (SFloat (repeat f_zero (nrows df))). repeat split; auto.
    simpl. apply map_repeat.
Qed.

End Normalizer.

(** ** The label column *)

Section Loader.
Context {FL : Float64}.

Lemma label_lookup_cells (s : series) :
  label_lookup s = map label_of_cell (cells s).
Proof.
  destruct s as [xs|xs|xs]; simpl; rewrite map_map; apply map_ext; intros a;
    try reflexivity.
  destruct a; reflexivity.
Qed.

Lemma label_of_cell_cases (c : cell) :
  (c = CStr "yes" /\ label_of_cell c = Some 1%Z) \/
  (c = CStr "no" /\ label_of_cell c = Some 0%Z) \/
  (c <> CStr "yes" /\ c <> CStr "no" /\ label_of_cell c = None).
Proof.
  destruct c as [z|x|v|]; simpl;
    try (right; right; repeat split; congruence).
  unfold label_dict.
  destruct (String.eqb v "yes") eqn:Y.
  - apply String.eqb_eq in Y; subst. left; split; reflexivity.
  - destruct (String.eqb v "no") eqn:N.
    + apply String.eqb_eq in N; subst. right; left; split; reflexivity.
    + apply String.eqb_neq in Y, N. right; right. repeat split; congruence.
Qed.

(** What [Series.map] leaves in a row, from the dictionary lookup there. *)
Lemma series_map_labels_row (s : series) (i : nat) (c : cell) :
  nth_error (cells s) i = Some c ->
  exists c', nth_error (cells (series_map_labels s)) i = Some c' /\
    match label_of_cell c with
    | Some z => is_number z c'
    | None => is_missing c'
    end.
Proof.
  intros Hc. unfold series_map_labels. rewrite label_lookup_cells.
  destruct (forallb is_some (map label_of_cell (cells s))) eqn:All; simpl.
  - rewrite map_map, map_map, nth_error_map, Hc; simpl.
    eexists; split; [reflexivity|].
    rewrite forallb_forall in All.
    assert (Hs : is_some (label_of_cell c) = true).
    { apply All. apply in_map. eapply nth_error_In; exact Hc. }
    destruct (label_of_cell c); [left; reflexivity | discriminate].
  - rewrite map_map, map_map, nth_error_map, Hc; simpl.
    eexists; split; [reflexivity|].
    destruct (label_of_cell c); [right; reflexivity | reflexivity].
Qed.

Lemma columns_relabel (df : frame) (f : string -> string) :
  columns (relabel df f) = map f (columns df).
Proof.
  unfold columns, relabel; simpl. rewrite !map_map. reflexivity.
Qed.

Lemma data_relabel (df : frame) (f : string -> string) :
  map snd (cols (relabel df f)) = map snd (cols df) /\
  nrows (relabel df f) = nrows df.
Proof.
  unfold relabel; simpl. rewrite map_map. split; reflexivity.
Qed.

(** C6. The loader renames the label 'y' to 'class' and leaves every other
    label and all the data as they are; when the renamed table has no column
    'class' nothing else happens; when it has a column 'class', that column
    is replaced by one that holds 1 where the cell was the string yes, 0
    where it was the string no and the missing value everywhere else, all
    other columns being kept. *)
Theorem C6_label_column (df : frame) :
  let renamed := rename df [("y", "class")] in
  columns renamed =
    map (fun c => if String.eqb c "y" then "class" else c) (columns df) /\
  map snd (cols renamed) = map snd (cols df) /\
  (has_column renamed "class" = false -> prepare_labels df = Return renamed) /\
  (forall s, select renamed "class" = [s] ->
     exists df' s',
       prepare_labels df = Return df' /\
       columns df' = columns renamed /\
       select df' "class" = [s'] /\
       (forall col, col <> "class" -> select df' col = select renamed col) /\
       forall i c, nth_error (cells s) i = Some c ->
         exists c', nth_error (cells s') i = Some c' /\
           (c = CStr "yes" -> is_number 1 c') /\
           (c = CStr "no" -> is_number 0 c') /\
           (c <> CStr "yes" -> c <> CStr "no" -> is_missing c')).
Proof.
  intros renamed. split; [|split; [|split]].
  - unfold renamed, rename. rewrite columns_relabel. reflexivity.
  - apply data_relabel.
  - intros H. unfold prepare_labels. fold renamed. rewrite H. reflexivity.
  - intros s Hs.
    exists (setitem renamed "class" (series_map_labels s)), (series_map_labels s).
    assert (H : has_column renamed "class" = true).
    { apply has_column_select. rewrite Hs. discriminate. }
    split; [|split; [|split; [|split]]].
    + unfold prepare_labels. fold renamed. rewrite H, Hs. reflexivity.
    + apply columns_setitem.
    + rewrite select_setitem_same, Hs. reflexivity.
    + intros col Hcol. apply select_setitem_other. congruence.
    + intros i c Hc.
      destruct (series_map_labels_row s i c Hc) as [c' [Hc' Hm]].
      exists c'. split; [exact Hc'|].
      destruct (label_of_cell_cases c) as [[E L]|[[E L]|[N1 [N2 L]]]];
        rewrite L in Hm.
      * repeat split; auto; intros; try contradiction. subst; discriminate.
      * repeat split; auto; intros; try contradiction. subst; discriminate.
      * repeat split; auto; intros; contradiction.
Qed.

End Loader.

(** ** The schema enforcer *)

Section Enforcer.
Context {FL : Float64} {HO : Host}.

Lemma mem_In (x : string) (l : list string) : mem x l = true <-> In x l.
Proof.
  unfold mem. rewrite existsb_exists. split.
  - intros [y [Hy E]]. apply String.eqb_eq in E. subst; exact Hy.
  - intros H. exists x. split; [exact H | apply String.eqb_refl].
Qed.

Lemma mem_ext (x : string) (l l' : list string) :
  (In x l <-> In x l') -> mem x l = mem x l'.
Proof.
  intros H. destruct (mem x l) eqn:E, (mem x l') eqn:E'; auto.
  - apply mem_In, H, mem_In in E. congruence.
  - apply mem_In, H, mem_In in E'. congruence.
Qed.

(** The list of missing columns does not depend on how the set is laid out. *)
Lemma missing_from_layout (seed : nat) (present target : list string) :
  missing_from (set_layout seed present) target = missing_from present target.
Proof.
  unfold missing_from. apply filter_ext. intros c. f_equal.
  apply mem_ext, set_layout_In.
Qed.

Lemma has_duplicates_NoDup (l : list string) :
  has_duplicates l = false <-> NoDup l.
Proof.
  induction l as [|x l IH]; simpl.
  - split; [constructor | reflexivity].
  - rewrite orb_false_iff, IH. split.
    + intros [Hm Hn]. constructor; [|exact Hn].
      intros Hin. apply mem_In in Hin. congruence.
    + intros H; inversion H; subst. split; [|assumption].
      destruct (mem x l) eqn:E; [|reflexivity]. apply mem_In in E. contradiction.
Qed.

Lemma target_columns_NoDup : NoDup target_columns.
Proof. apply has_duplicates_NoDup. vm_compute. reflexivity. Qed.

Lemma select_absent (df : frame) (col : string) :
  ~ In col (columns df) -> select df col = [].
Proof.
  intros H. destruct (select df col) eqn:E; [reflexivity|].
  exfalso. apply H. apply has_column_In, has_column_select. congruence.
Qed.

Lemma select_unique (df : frame) (col : string) :
  NoDup (columns df) -> In col (columns df) -> exists s, select df col = [s].
Proof.
  unfold columns, select. induction (cols df) as [|[l x] r IH]; simpl;
    intros Hnd Hin; [contradiction|].
  inversion Hnd as [|? ? Hnot Hnd']; subst.
  destruct (String.eqb col l) eqn:E; simpl.
  - apply String.eqb_eq in E; subst l. exists x. f_equal.
    apply (select_absent (mkFrame 0 r)). exact Hnot.
  - apply String.eqb_neq in E. destruct Hin as [->|Hin]; [congruence|].
    apply IH; assumption.
Qed.

(** Selecting from a frame built label by label. *)
Lemma select_tabulate (n : nat) (g : string -> series) (t : list string)
      (col : string) :
  NoDup t -> In col t ->
  select (mkFrame n (map (fun c => (c, g c)) t)) col = [g col].
Proof.
  unfold select; simpl. induction t as [|c t IH]; intros Hnd Hin; [contradiction|].
  inversion Hnd as [|? ? Hnot Hnd']; subst. simpl.
  destruct (String.eqb col c) eqn:E; simpl.
  - apply String.eqb_eq in E; subst c. f_equal.
    clear IH Hin Hnd. induction t as [|d t IH]; simpl; [reflexivity|].
    destruct (String.eqb col d) eqn:E.
    + apply String.eqb_eq in E; subst. exfalso; apply Hnot; left; reflexivity.
    + apply IH. { intros H; apply Hnot; right; exact H. }
      inversion Hnd'; assumption.
  - apply String.eqb_neq in E. destruct Hin as [->|Hin]; [congruence|].
    apply IH; assumption.
Qed.

Lemma columns_tabulate (n : nat) (g : string -> series) (t : list string) :
  columns (mkFrame n (map (fun c => (c, g c)) t)) = t.
Proof.
  unfold columns; simpl. rewrite map_map; simpl. apply map_id.
Qed.

(** Reindexing a frame with pairwise distinct labels onto the target. *)
Lemma reindex_distinct (df : frame) :
  NoDup (columns df) ->
  exists out,
    reindex df target_columns 0 = Return out /\
    columns out = target_columns /\
    nrows out = nrows df /\
    (forall col, In col target_columns -> ~ In col (columns df) ->
       exists zeros, select out col = [zeros] /\
                     cells zeros = repeat (CInt 0) (nrows df)) /\
    (forall col, In col target_columns -> In col (columns df) ->
       select out col = select df col).
Proof.
  intros Hnd. unfold reindex.
  apply has_duplicates_NoDup in Hnd as Hd. rewrite Hd.
  eexists. split; [reflexivity|].
  rewrite columns_tabulate.
  split; [reflexivity|]. split; [reflexivity|]. split.
  - intros col Ht Habs.
    rewrite (select_tabulate _ _ _ col target_columns_NoDup Ht).
    rewrite (select_absent df col Habs).
    eexists; split; [reflexivity|]. simpl. apply map_repeat.
  - intros col Ht Hin.
    rewrite (select_tabulate _ _ _ col target_columns_NoDup Ht).
    destruct (select_unique df col Hnd Hin) as [s Hs]. rewrite Hs. reflexivity.
Qed.

(** C1. For every processed table with pairwise distinct column
    labels, the reindexing produces an output table whose columns are the
    target columns in the target order, 63 of them; a target column that
    the processed table lacks holds 0 in every row, a target column that it
    has is carried over, and a processed column that is no target column is
    not in the output. *)
Theorem C1_strict_reindex (df : frame) :
  NoDup (columns df) ->
  exists out,
    reindex df target_columns 0 = Return out /\
    columns out = target_columns /\
    List.length (columns out) = 63 /\
    nrows out = nrows df /\
    (forall col, In col target_columns -> ~ In col (columns df) ->
       exists zeros, select out col = [zeros] /\
                     cells zeros = repeat (CInt 0) (nrows df)) /\
    (forall col, In col target_columns -> In col (columns df) ->
       select out col = select df col) /\
    (forall col, In col (columns df) -> ~ In col target_columns ->
       ~ In col (columns out)).
Proof.
  intros Hnd.
  destruct (reindex_distinct df Hnd) as (out & Hr & Hc & Hn & Hz & Hk).
  exists out. repeat split; try assumption.
  - rewrite Hc. reflexivity.
  - intros col _ Hnot. rewrite Hc. exact Hnot.
Qed.

(** With a repeated label pandas refuses to reindex: no output table. *)
Lemma reindex_duplicate_labels (df : frame) (target : list string) (fill : Z) :
  ~ NoDup (columns df) -> reindex df target fill = Raise ValueError.
Proof.
  intros H. unfold reindex.
  destruct (has_duplicates (columns df)) eqn:E; [reflexivity|].
  apply has_duplicates_NoDup in E. contradiction.
Qed.

End Enforcer.

(** ** Runs of the schema enforcer *)

Section EnforcerRuns.
Context {FL : Float64} {HO : Host}.


Lemma printed_nil (w : world) : printed w [] = w.
Proof. destruct w; unfold printed; simpl. rewrite app_nil_r. reflexivity. Qed.

Lemma printed_printed (w : world) (a b : list string) :
  printed (printed w a) b = printed w (a ++ b).
Proof. unfold printed; simpl. rewrite app_assoc. reflexivity. Qed.

Lemma print_run (line : string) (w : world) :
  print line w = (Return tt, printed w [line]).
Proof. reflexivity. Qed.

Lemma print_missing_run (l : list string) (w : world) :
  print_missing l w =
    (Return tt, printed w (map (fun col => "  [MISSING] " ++ col) l)).
Proof.
  revert w; induction l as [|c l IH]; intros w; simpl.
  - unfold ret. rewrite printed_nil. reflexivity.
  - unfold bind. rewrite print_run, IH, printed_printed. reflexivity.
Qed.


(** Step 6 never fails and never touches a file: it returns the target
    columns that the frame lacks and prints its report. *)
Lemma log_missing_columns_run (df : frame) (w : world) :
  log_missing_columns df w =
    (Return (missing_from (columns df) target_columns),
     printed w (missing_report (missing_from (columns df) target_columns))).
Proof.
  unfold log_missing_columns, bind at 1, get_hashseed.
  rewrite missing_from_layout.
  destruct (missing_from (columns df) target_columns) as [|m ms] eqn:E.
  - unfold bind, ret. rewrite print_run. reflexivity.
  - unfold bind, ret. rewrite !print_run, print_missing_run.
    rewrite !print_run, !printed_printed. reflexivity.
Qed.

(** The enforcer goes on to the reindexing whatever the report was. *)
Lemma enforce_schema_run (df : frame) (output_filename : string) (w : world) :
  enforce_schema df output_filename w =
    let w1 := printed w (missing_report (missing_from (columns df) target_columns)) in
    match reindex df target_columns 0 with
    | Raise e => (Raise e, w1)
    | Return df_final =>
        (Return (Some (PyStr.join "," (columns df_final))),
         mkWorld (fun p => if String.eqb p output_filename
                           then Some (format_csv df_final) else fs w p)
                 (stdout w1 ++ [saved_line output_filename])
                 (hashseed w))
    end.
Proof.
  unfold enforce_schema, bind at 1. rewrite log_missing_columns_run.
  unfold bind, lift. destruct (reindex df target_columns 0); reflexivity.
Qed.

Lemma In_missing_from (present target : list string) (col : string) :
  In col (missing_from present target) <-> In col target /\ ~ In col present.
Proof.
  unfold missing_from. rewrite filter_In, negb_true_iff.
  split; intros [H1 H2]; split; auto.
  - intros Hin. apply mem_In in Hin. congruence.
  - destruct (mem col present) eqn:E; [|reflexivity].
    apply mem_In in E. contradiction.
Qed.

(** C8. Whatever the layout of the set of present columns, step 6 computes
    the target columns that the processed table lacks, in target order; it
    prints its report, with one line for each missing column when the list
    is not empty, raises nothing and writes no file; the enforcer then goes
    on to the reindexing, so that the run ends as the reindexing does
    whether or not columns are missing; and for a table with pairwise
    distinct labels the run returns the header and saves an output in which
    every missing column holds 0 in every row. *)
Theorem C8_missing_columns (df : frame) (output_filename : string) (w : world) :
  let missing := missing_from (columns df) target_columns in
  missing = filter (fun col => negb (mem col (columns df))) target_columns /\
  (forall col, In col missing <-> In col target_columns /\ ~ In col (columns df)) /\
  log_missing_columns df w = (Return missing, printed w (missing_report missing)) /\
  (missing <> [] ->
   forall col, In col missing -> In ("  [MISSING] " ++ col) (missing_report missing)) /\
  fst (enforce_schema df output_filename w) =
    obind (reindex df target_columns 0)
          (fun df_final => Return (Some (PyStr.join "," (columns df_final)))) /\
  (NoDup (columns df) ->
   exists df_final,
     reindex df target_columns 0 = Return df_final /\
     fst (enforce_schema df output_filename w)
       = Return (Some (PyStr.join "," target_columns)) /\
     fs (snd (enforce_schema df output_filename w)) output_filename
       = Some (format_csv df_final) /\
     forall col, In col missing ->
       exists zeros, select df_final col = [zeros] /\
                     cells zeros = repeat (CInt 0) (nrows df)).
Proof.
  cbv zeta. split; [|split; [|split; [|split; [|split]]]].
  - reflexivity.
  - intros col. apply In_missing_from.
  - apply log_missing_columns_run.
  - intros Hne col Hin. unfold missing_report.
    destruct (missing_from (columns df) target_columns) as [|m ms];
      [contradiction|].
    apply in_or_app; right. apply in_or_app; left.
    apply in_map with (f := fun c => "  [MISSING] " ++ c). exact Hin.
  - rewrite enforce_schema_run. cbv zeta.
    destruct (reindex df target_columns 0); reflexivity.
  - intros Hnd.
    destruct (reindex_distinct df Hnd) as (out & Hr & Hc & Hn & Hz & Hk).
    exists out. split; [exact Hr|].
    rewrite enforce_schema_run, Hr. cbv zeta. cbn [fst snd fs]. rewrite Hc.
    split; [reflexivity|]. rewrite String.eqb_refl. split; [reflexivity|].
    intros col Hin. apply In_missing_from in Hin. destruct Hin as [Ht Ha].
    apply Hz; assumption.
Qed.

End EnforcerRuns.

(** ** Runs of [process_data] *)

Section Runs.
Context {FL : Float64} {HO : Host}.

(** The function, block by block. *)
Lemma process_data_run (input_path output_filename : string) (w : world) :
  process_data input_path output_filename w =
    let w0 := printed w [reading_line input_path] in
    match load w input_path with
    | Raise FileNotFoundError =>
        (Return None, printed w0 [not_found_line input_path])
    | Raise e => (Raise e, w0)
    | Return df =>
        match prepare_labels df with
        | Raise e => (Raise e, w0)
        | Return df =>
            let w1 := printed w0 ["Normalizing numerical columns..."] in
            match normalize_columns numeric_cols df with
            | Raise e => (Raise e, w1)
            | Return normalized =>
                match get_dummies (fst normalized) categorical_cols categorical_cols with
                | Raise e => (Raise e, w1)
                | Return df_encoded =>
                    enforce_schema (rename df_encoded (column_mapping (columns df_encoded))) output_filename w1
                end
            end
        end
    end.
Proof.
  unfold process_data, load, bind at 1. rewrite print_run.
  unfold bind at 1, try_except_FileNotFoundError, bind at 1, read_csv.
  cbv zeta. cbn [fs printed].
  destruct (fs w input_path) as [text|].
  2:{ destruct (obstacle_at input_path) as [[|]|];
        cbn [open_error]; unfold bind, ret; rewrite ?print_run; reflexivity. }
  destruct (parse_csv text) as [df|e].
  2:{ destruct e; try reflexivity. }
  cbv beta iota zeta delta [ret bind lift].
  destruct (prepare_labels df) as [df1|e]; [|reflexivity].
  destruct (normalize_columns numeric_cols df1) as [n|e]; [|reflexivity].
  destruct (get_dummies (fst n) categorical_cols categorical_cols) as [enc|e];
    reflexivity.
Qed.

Lemma reindex_columns (df out : frame) (target : list string) (fill : Z) :
  reindex df target fill = Return out -> columns out = target.
Proof.
  unfold reindex. destruct (has_duplicates (columns df)); [discriminate|].
  intros H; inversion H; subst. apply columns_tabulate.
Qed.

Lemma expected_header_join : PyStr.join "," target_columns = expected_header.
Proof. vm_compute. reflexivity. Qed.

(** A run that returns a header returns the joined target columns. *)
Lemma process_data_header (input_path output_filename : string) (w : world)
      (h : string) :
  fst (process_data input_path output_filename w) = Return (Some h) ->
  h = PyStr.join "," target_columns.
Proof.
  rewrite process_data_run. cbv zeta.
  destruct (load w input_path) as [df|e].
  2:{ destruct e; simpl; discriminate. }
  destruct (prepare_labels df) as [df1|e]; [|simpl; discriminate].
  destruct (normalize_columns numeric_cols df1) as [n|e]; [|simpl; discriminate].
  destruct (get_dummies (fst n) categorical_cols categorical_cols) as [enc|e];
    [|simpl; discriminate].
  rewrite enforce_schema_run. cbv zeta.
  destruct (reindex (rename enc (column_mapping (columns enc))) target_columns 0) as [out|e] eqn:R;
    [|simpl; discriminate].
  cbn [fst]. intros H. inversion H; subst.
  rewrite (reindex_columns _ _ _ _ R). reflexivity.
Qed.

(** C7. When nothing is at the input path, so that reading it raises
    FileNotFoundError, [process_data] prints its error message, raises
    nothing and returns None, and the files are what they were: no output is
    written.  The entry point, which checks the path first, then only prints
    its two lines and writes nothing either. *)
Theorem C7_missing_input (input_path output_filename : string) (w : world) :
  fs w input_path = None ->
  obstacle_at input_path = None ->
  process_data input_path output_filename w =
    (Return None,
     printed w ["Reading data from: " ++ input_path;
                "Error: The file '" ++ input_path
                  ++ "' was not found. Please check the file path."]) /\
  fs (snd (process_data input_path output_filename w)) = fs w /\
  (input_path = "bank-additional-full.csv" ->
   main w =
     (Return tt,
      printed w ["File not found: bank-additional-full.csv";
                 "Please ensure 'bank-additional-full.csv' is in the current directory."])).
Proof.
  intros Hnone Hfree.
  assert (R : process_data input_path output_filename w =
              (Return None,
               printed w ["Reading data from: " ++ input_path;
                          "Error: The file '" ++ input_path
                            ++ "' was not found. Please check the file path."])).
  { rewrite process_data_run. unfold load. rewrite Hnone, Hfree. cbv zeta.
    rewrite printed_printed. reflexivity. }
  split; [exact R|]. split; [rewrite R; reflexivity|].
  intros ->. unfold main, bind at 1, path_exists. cbv zeta. rewrite Hnone, Hfree.
  cbn [is_some orb]. unfold bind. rewrite !print_run, printed_printed. reflexivity.
Qed.

(** C9. Two runs of [process_data] from worlds that agree on the contents
    of the input path, whatever their hash seeds, their other files and what
    was printed before: they end alike (the same exception, or the same
    returned value), print the same lines, and when they return a header the
    output file holds the same text after both. *)
Theorem C9_deterministic (input_path output_filename : string) (w1 w2 : world) :
  fs w1 input_path = fs w2 input_path ->
  let r1 := process_data input_path output_filename w1 in
  let r2 := process_data input_path output_filename w2 in
  fst r1 = fst r2 /\
  (exists lines, stdout (snd r1) = (stdout w1 ++ lines)%list /\
                 stdout (snd r2) = (stdout w2 ++ lines)%list) /\
  (forall h, fst r1 = Return (Some h) ->
     exists text, fs (snd r1) output_filename = Some text /\
                  fs (snd r2) output_filename = Some text).
Proof.
  intros Hfs. cbv zeta. rewrite !process_data_run. cbv zeta.
  unfold load. rewrite <- Hfs.
  destruct (fs w1 input_path) as [text|].
  2:{ destruct (obstacle_at input_path) as [[|]|];
      cbn [open_error fst snd stdout printed]; rewrite <- ?app_assoc;
      (split; [reflexivity|]); (split; [|discriminate]);
      eexists; split; reflexivity. }
  destruct (parse_csv text) as [df|e].
  2:{ destruct e; cbn [fst snd stdout printed]; rewrite <- ?app_assoc;
      (split; [reflexivity|]); (split; [|discriminate]);
      eexists; split; reflexivity. }
  destruct (prepare_labels df) as [df1|e].
  2:{ cbn [fst snd stdout printed].
      split; [reflexivity|]. split; [|discriminate].
      eexists; split; reflexivity. }
  destruct (normalize_columns numeric_cols df1) as [n|e].
  2:{ cbn [fst snd stdout printed]. rewrite <- !app_assoc.
      split; [reflexivity|]. split; [|discriminate].
      eexists; split; reflexivity. }
  destruct (get_dummies (fst n) categorical_cols categorical_cols) as [enc|e].
  2:{ cbn [fst snd stdout printed]. rewrite <- !app_assoc.
      split; [reflexivity|]. split; [|discriminate].
      eexists; split; reflexivity. }
  rewrite !enforce_schema_run. cbv zeta.
  destruct (reindex (rename enc (column_mapping (columns enc))) target_columns 0) as [out|e].
  - cbn [fst snd stdout printed fs]. rewrite <- !app_assoc.
    split; [reflexivity|]. split.
    + eexists; split; reflexivity.
    + intros h _. rewrite String.eqb_refl. eexists; split; reflexivity.
  - cbn [fst snd stdout printed]. rewrite <- !app_assoc.
    split; [reflexivity|]. split; [|discriminate].
    eexists; split; reflexivity.
Qed.

(** C10. Whenever [process_data] returns a header, that header
    is the comma-joined list of the 63 target columns, which is the literal
    the entry point expects; the entry point, run on the same world, then
    adds the line PASSED to what [process_data] printed, never the line
    FAILED. *)
Theorem C10_returned_header (input_path output_filename : string) (w : world)
        (h : string) :
  fst (process_data input_path output_filename w) = Return (Some h) ->
  h = expected_header /\
  h = PyStr.join "," target_columns /\
  List.length target_columns = 63 /\
  (input_path = "bank-additional-full.csv" ->
   output_filename = "dataBank_transformed.csv" ->
   main w =
     (Return tt,
      printed (snd (process_data input_path output_filename w)) [passed_line])).
Proof.
  intros Hrun.
  pose proof (process_data_header _ _ _ _ Hrun) as Hh.
  split; [rewrite Hh; exact expected_header_join|].
  split; [exact Hh|]. split; [reflexivity|].
  intros -> ->.
  assert (Hex : is_some (fs w "bank-additional-full.csv") = true).
  { destruct (fs w "bank-additional-full.csv") eqn:E; [reflexivity|].
    rewrite process_data_run in Hrun. unfold load in Hrun. rewrite E in Hrun.
    destruct (obstacle_at "bank-additional-full.csv") as [[|]|]; discriminate. }
  unfold main, bind at 1, path_exists. cbv zeta. rewrite Hex. cbn [orb].
  unfold bind at 1.
  destruct (process_data "bank-additional-full.csv" "dataBank_transformed.csv" w)
    as [o w'].
  cbn [fst snd] in *. subst o.
  rewrite Hh, expected_header_join, String.eqb_refl.
  replace (truthy (Some expected_header)) with true by (vm_compute; reflexivity).
  apply print_run.
Qed.

End Runs.

(** ** The encoder on a table that lacks a categorical column *)

Section Encoder.
Context {FL : Float64}.

Lemma select_many_absent (df : frame) (cs : list string) (col : string) :
  In col cs -> has_column df col = false -> select_many df cs = Raise KeyError.
Proof.
  induction cs as [|c cs IH]; intros Hin Habs; [contradiction|].
  simpl. destruct (has_column df c) eqn:E; [|reflexivity].
  destruct Hin as [->|Hin]; [congruence|].
  rewrite (IH Hin Habs). reflexivity.
Qed.

(** [get_dummies] selects all the columns it is asked to encode before it
    encodes any: one absent column and the call raises. *)
Lemma get_dummies_absent (df : frame) (col : string) :
  In col categorical_cols -> has_column df col = false ->
  get_dummies df categorical_cols categorical_cols = Raise KeyError.
Proof.
  intros Hin Habs. unfold get_dummies.
  rewrite (select_many_absent df categorical_cols col Hin Habs). reflexivity.
Qed.

(** *** The encoder when every categorical column is there *)

Lemma In_insert_level {A : Type} (ltb eqb : A -> A -> bool) (x v : A) (l : list A) :
  (forall a b, eqb a b = true <-> a = b) ->
  In v (insert_level ltb eqb x l) <-> v = x \/ In v l.
Proof.
  intros Heq. induction l as [|y l IH]; simpl.
  - intuition.
  - destruct (eqb x y) eqn:E.
    + apply Heq in E. subst y. simpl. intuition.
    + destruct (ltb x y); simpl; [intuition|]. rewrite IH. intuition.
Qed.

Lemma In_levels_of {A : Type} (ltb eqb : A -> A -> bool) (v : A) (l : list A) :
  (forall a b, eqb a b = true <-> a = b) ->
  In v (levels_of ltb eqb l) <-> In v l.
Proof.
  intros Heq. unfold levels_of. induction l as [|x l IH]; simpl; [tauto|].
  rewrite (In_insert_level _ _ _ _ _ Heq), IH. intuition.
Qed.

Lemma In_present_strings (v : string) (xs : list (option string)) :
  In v (present_strings xs) <-> In (Some v) xs.
Proof.
  induction xs as [|[x|] xs IH]; simpl; [tauto| |].
  - rewrite IH. split; intros [H|H]; auto; left; congruence.
  - rewrite IH. split; [auto|]. intros [H|H]; [discriminate|exact H].
Qed.

(** The label of every indicator column starts with its prefix and an
    underscore. *)
Lemma get_dummies_1d_label (s : series) (prefix label : string) (d : series) :
  In (label, d) (get_dummies_1d s prefix) ->
  String.prefix (prefix ++ "_") label = true.
Proof.
  destruct s as [xs|xs|xs]; simpl; intros H; apply in_map_iff in H;
    destruct H as [v [E _]]; inversion E; subst;
    apply (prefix_append2 prefix "_").
Qed.

Lemma categorical_not_dummy_label :
  forallb (fun p => forallb (fun c => negb (String.prefix (p ++ "_") c))
                            categorical_cols) categorical_cols = true.
Proof. vm_compute. reflexivity. Qed.

Lemma filter_label_unique (df : frame) (col : string) :
  NoDup (columns df) -> In col (columns df) ->
  filter (fun p => String.eqb col (fst p)) (cols df) = [(col, column_of df col)].
Proof.
  unfold column_of, select, columns.
  induction (cols df) as [|[l x] r IH]; simpl; intros Hnd Hin; [contradiction|].
  inversion Hnd as [|? ? Hnot Hnd']; subst.
  destruct (String.eqb col l) eqn:E; simpl.
  - apply String.eqb_eq in E; subst l. f_equal.
    clear IH Hin Hnd Hnd'. induction r as [|[l y] r IH]; simpl; [reflexivity|].
    destruct (String.eqb col l) eqn:E.
    + apply String.eqb_eq in E; subst. exfalso; apply Hnot; left; reflexivity.
    + apply IH. intros H; apply Hnot; right; exact H.
  - apply String.eqb_neq in E. destruct Hin as [->|Hin]; [congruence|].
    apply IH; assumption.
Qed.

Lemma select_many_present (df : frame) (cs : list string) :
  NoDup (columns df) ->
  (forall c, In c cs -> has_column df c = true) ->
  select_many df cs = Return (map (fun c => (c, column_of df c)) cs).
Proof.
  intros Hnd. induction cs as [|c cs IH]; intros Hall; [reflexivity|].
  simpl. rewrite (Hall c (or_introl eq_refl)).
  rewrite IH by (intros d Hd; apply Hall; right; exact Hd). simpl.
  rewrite (filter_label_unique df c Hnd)
    by (apply has_column_In, Hall; left; reflexivity).
  reflexivity.
Qed.

Lemma combine_map_self {A B : Type} (f : A -> B) (l : list A) :
  combine (map f l) l = map (fun a => (f a, a)) l.
Proof. induction l as [|a l IH]; simpl; [reflexivity | rewrite IH; reflexivity]. Qed.

Lemma flat_map_map {A B C : Type} (g : B -> list C) (h : A -> B) (l : list A) :
  flat_map g (map h l) = flat_map (fun a => g (h a)) l.
Proof. induction l as [|a l IH]; simpl; [reflexivity | rewrite IH; reflexivity]. Qed.

(** On a table with pairwise distinct labels that has all ten categorical
    columns the encoder returns: each value observed in a categorical column
    of strings or of integers has its indicator column, and no categorical
    column is left. *)
Lemma get_dummies_all_present (df : frame) :
  NoDup (columns df) ->
  (forall c, In c categorical_cols -> has_column df c = true) ->
  exists enc,
    get_dummies df categorical_cols categorical_cols = Return enc /\
    nrows enc = nrows df /\
    (forall c xs v, In c categorical_cols -> select df c = [SObj xs] ->
       In (Some v) xs ->
       In (c ++ "_" ++ v,
           SInt (map (fun o => match o with
                               | Some x => indicator (String.eqb x v)
                               | None => 0%Z
                               end) xs)) (cols enc)) /\
    (forall c xs v, In c categorical_cols -> select df c = [SInt xs] ->
       In v xs ->
       In (c ++ "_" ++ PyStr.of_Z v,
           SInt (map (fun x => indicator (Z.eqb x v)) xs)) (cols enc)) /\
    (forall c, In c categorical_cols -> ~ In c (columns enc)).
Proof.
  intros Hnd Hall. unfold get_dummies.
  rewrite (select_many_present df categorical_cols Hnd Hall).
  cbn [obind]. rewrite length_map, Nat.eqb_refl. cbn [negb].
  rewrite combine_map_self, flat_map_map. cbn [fst snd].
  eexists. split; [reflexivity|]. split; [reflexivity|].
  cbn [cols]. split; [|split].
  - intros c xs v Hc Hs Hv. apply in_or_app; right.
    apply in_flat_map. exists c. split; [exact Hc|].
    unfold column_of. rewrite Hs. cbn [get_dummies_1d].
    apply in_map_iff. exists v. split; [reflexivity|].
    apply In_levels_of; [exact String.eqb_eq|].
    apply In_present_strings; exact Hv.
  - intros c xs v Hc Hs Hv. apply in_or_app; right.
    apply in_flat_map. exists c. split; [exact Hc|].
    unfold column_of. rewrite Hs. cbn [get_dummies_1d].
    apply in_map_iff. exists v. split; [reflexivity|].
    apply In_levels_of; [exact Z.eqb_eq | exact Hv].
  - intros c Hc Hin. unfold columns in Hin. cbn [cols] in Hin.
    apply in_map_iff in Hin. destruct Hin as [[l d] [E Hin]].
    cbn [fst] in E. subst l.
    apply in_app_or in Hin. destruct Hin as [Hin|Hin].
    + unfold drop in Hin. cbn [cols] in Hin. apply filter_In in Hin.
      destruct Hin as [_ Hm]. cbn [fst] in Hm.
      apply negb_true_iff in Hm.
      assert (M : mem c categorical_cols = true).
      { unfold mem. apply existsb_exists. exists c.
        split; [exact Hc | apply String.eqb_refl]. }
      congruence.
    + apply in_flat_map in Hin. destruct Hin as [p [Hp Hd]].
      apply get_dummies_1d_label in Hd.
      pose proof categorical_not_dummy_label as N.
      rewrite forallb_forall in N. specialize (N p Hp).
      rewrite forallb_forall in N. specialize (N c Hc).
      rewrite Hd in N. discriminate.
Qed.

(** X6. On a table with pairwise distinct labels that has all ten
    categorical columns the encoder returns a table with as many rows, in
    which each value observed in a categorical column of strings or of
    integers has its indicator column, 1 in the rows that hold the value and
    0 in the others, and in which no categorical column is left. *)
Theorem encoder_all_present (df : frame) :
  NoDup (columns df) ->
  (forall c, In c categorical_cols -> has_column df c = true) ->
  exists enc,
    get_dummies df categorical_cols categorical_cols = Return enc /\
    nrows enc = nrows df /\
    (forall c xs v, In c categorical_cols -> select df c = [SObj xs] ->
       In (Some v) xs ->
       In (c ++ "_" ++ v,
           SInt (map (fun o => match o with
                               | Some x => indicator (String.eqb x v)
                               | None => 0%Z
                               end) xs)) (cols enc)) /\
    (forall c xs v, In c categorical_cols -> select df c = [SInt xs] ->
       In v xs ->
       In (c ++ "_" ++ PyStr.of_Z v,
           SInt (map (fun x => indicator (Z.eqb x v)) xs)) (cols enc)) /\
    (forall c, In c categorical_cols -> ~ In c (columns enc)).
Proof. apply get_dummies_all_present. Qed.

(** X7. A table that lacks one of the ten categorical columns makes the
    encoder raise KeyError, whatever else it holds. *)
Theorem encoder_absent_column (df : frame) (col : string) :
  In col categorical_cols -> has_column df col = false ->
  get_dummies df categorical_cols categorical_cols = Raise KeyError.
Proof. apply get_dummies_absent. Qed.

End Encoder.

(** ** More on the normaliser *)

Section NormalizerShape.
Context {FL : Float64}.

Lemma normalize_column_shape (df df1 : frame) (c : string)
      (d : list (string * scalar)) :
  normalize_column df c = Return (df1, d) ->
  columns df1 = columns df /\ nrows df1 = nrows df.
Proof.
  unfold normalize_column.
  destruct (has_column df c).
  2:{ intros H; inversion H; subst. split; reflexivity. }
  destruct (select df c) as [|s [|s' r]]; try discriminate.
  destruct (series_min s) as [mn|]; simpl; try discriminate.
  destruct (series_max s) as [mx|]; simpl; try discriminate.
  destruct (scalar_ne mx mn).
  - destruct (series_sub s mn) as [num|]; simpl; try discriminate.
    destruct (scalar_sub mx mn) as [den|]; simpl; try discriminate.
    destruct (series_div num den) as [quo|]; simpl; try discriminate.
    intros H; inversion H; subst. split; [apply columns_setitem | reflexivity].
  - intros H; inversion H; subst. split; [apply columns_setitem | reflexivity].
Qed.

Lemma normalize_columns_shape (cs : list string) (df df' : frame)
        (d : list (string * scalar)) :
  normalize_columns cs df = Return (df', d) ->
  columns df' = columns df /\ nrows df' = nrows df /\
  forall col, ~ In col cs -> select df' col = select df col.
Proof.
  revert df df' d. induction cs as [|c cs IH]; intros df df' d; simpl.
  - intros H; inversion H; subst. repeat split; reflexivity.
  - destruct (normalize_column df c) as [[df1 d1]|] eqn:E1; simpl; try discriminate.
    destruct (normalize_columns cs df1) as [[df2 d2]|] eqn:E2; simpl; try discriminate.
    intros H; inversion H; subst.
    destruct (normalize_column_shape _ _ _ _ E1) as (C1 & N1).
    destruct (IH _ _ _ E2) as (C2 & N2 & S2).
    repeat split; [congruence | congruence |].
    intros col Hnot.
    rewrite S2 by (intros Hin; apply Hnot; right; exact Hin).
    assert (Hc : c <> col) by (intros ->; apply Hnot; left; reflexivity).
    apply (normalize_column_other _ _ _ _ _ Hc E1).
Qed.

(** X1. The normaliser changes values only: when the loop ends, the table
    has the labels it had, in the same order, and as many rows, and a column
    whose label is not in the list of the loop is the column it was. *)
Theorem normaliser_keeps_shape (cs : list string) (df df' : frame)
        (d : list (string * scalar)) :
  normalize_columns cs df = Return (df', d) ->
  columns df' = columns df /\ nrows df' = nrows df /\
  forall col, ~ In col cs -> select df' col = select df col.
Proof. apply normalize_columns_shape. Qed.

(** X2. A table without any of the columns of the loop goes through the
    normaliser untouched: nothing raises and nothing is divided. *)
Theorem normalize_columns_absent (cs : list string) (df : frame) :
  (forall c, In c cs -> has_column df c = false) ->
  normalize_columns cs df = Return (df, []).
Proof.
  induction cs as [|c cs IH]; intros Habs; [reflexivity|].
  simpl. unfold normalize_column at 1.
  rewrite (Habs c (or_introl eq_refl)). cbn [obind fst snd].
  rewrite IH by (intros c' Hc'; apply Habs; right; exact Hc').
  reflexivity.
Qed.

(** *** An int64 column that varies *)

Lemma fold_min_spec (r : list Z) (x : Z) :
  let m := fold_left Z.min r x in
  In m (x :: r) /\ forall v, In v (x :: r) -> (m <= v)%Z.
Proof.
  revert x. induction r as [|y r IH]; intros x; cbn [fold_left].
  - split; [left; reflexivity|]. intros v [<-|[]]. apply Z.le_refl.
  - destruct (IH (Z.min x y)) as [Hin Hle]. split.
    + destruct Hin as [E|Hin].
      * rewrite <- E. destruct (Z.min_spec x y) as [[_ ->]|[_ ->]];
          [left; reflexivity | right; left; reflexivity].
      * right; right; exact Hin.
    + intros v [<-|[<-|Hv]].
      * eapply Z.le_trans; [apply Hle; left; reflexivity | apply Z.le_min_l].
      * eapply Z.le_trans; [apply Hle; left; reflexivity | apply Z.le_min_r].
      * apply Hle; right; exact Hv.
Qed.

Lemma fold_max_spec (r : list Z) (x : Z) :
  let m := fold_left Z.max r x in
  In m (x :: r) /\ forall v, In v (x :: r) -> (v <= m)%Z.
Proof.
  revert x. induction r as [|y r IH]; intros x; cbn [fold_left].
  - split; [left; reflexivity|]. intros v [<-|[]]. apply Z.le_refl.
  - destruct (IH (Z.max x y)) as [Hin Hle]. split.
    + destruct Hin as [E|Hin].
      * rewrite <- E. destruct (Z.max_spec x y) as [[_ ->]|[_ ->]];
          [right; left; reflexivity | left; reflexivity].
      * right; right; exact Hin.
    + intros v [<-|[<-|Hv]].
      * eapply Z.le_trans; [apply Z.le_max_l | apply Hle; left; reflexivity].
      * eapply Z.le_trans; [apply Z.le_max_r | apply Hle; left; reflexivity].
      * apply Hle; right; exact Hv.
Qed.

Lemma wrap64_small (z : Z) :
  (- 2 ^ 63 <= z < 2 ^ 63)%Z -> wrap64 z = z.
Proof.
  intros H. unfold wrap64. rewrite Z.mod_small; lia.
Qed.

(** X3. On an int64 column with two different values whose spread fits int64,
    the iteration divides once, by the spread; every value [v] is replaced
    by the quotient of [v - min] by [max - min], where [min] and [max] are
    the least and the greatest value of the column, so that the numerator
    lies between 0 and the divisor and the divisor is positive. *)
Theorem normalize_column_int (df : frame) (col : string) (xs : list Z) :
  select df col = [SInt xs] ->
  (exists a b, In a xs /\ In b xs /\ a <> b) ->
  (forall a b, In a xs -> In b xs -> (b - a < 2 ^ 63)%Z) ->
  exists mn mx,
    In mn xs /\ In mx xs /\ (mn < mx)%Z /\
    (forall v, In v xs -> (0 <= v - mn <= mx - mn)%Z) /\
    normalize_column df col =
      Return (setitem df col
                (SFloat (map (fun v => f_div (f_of_Z (v - mn)) (f_of_Z (mx - mn))) xs)),
              [(col, VInt (mx - mn))]).
Proof.
  intros Hs (a & b & Ha & Hb & Hab) Hfit.
  destruct xs as [|x r]; [contradiction|].
  destruct (fold_min_spec r x) as [Imn Lmn].
  destruct (fold_max_spec r x) as [Imx Lmx].
  set (mn := fold_left Z.min r x) in *. set (mx := fold_left Z.max r x) in *.
  assert (Hlt : (mn < mx)%Z).
  { pose proof (Lmn a Ha). pose proof (Lmn b Hb).
    pose proof (Lmx a Ha). pose proof (Lmx b Hb). lia. }
  exists mn, mx. split; [exact Imn|]. split; [exact Imx|]. split; [exact Hlt|].
  assert (Hrange : forall v, In v (x :: r) -> (0 <= v - mn <= mx - mn)%Z).
  { intros v Hv. pose proof (Lmn v Hv). pose proof (Lmx v Hv). lia. }
  split; [exact Hrange|].
  unfold normalize_column.
  assert (H : has_column df col = true).
  { apply has_column_select. rewrite Hs. discriminate. }
  rewrite H, Hs. cbn [series_min series_max series_reduce obind].
  fold mn. fold mx. cbn [scalar_ne].
  assert (E : Z.eqb mx mn = false) by (apply Z.eqb_neq; lia).
  rewrite E. cbn [negb series_sub obind scalar_sub series_div].
  assert (W : wrap64 (mx - mn) = (mx - mn)%Z).
  { apply wrap64_small. pose proof (Hfit mn mx Imn Imx). lia. }
  rewrite W. rewrite map_map.
  do 3 f_equal. f_equal. apply map_ext_in. intros v Hv.
  rewrite wrap64_small; [reflexivity|].
  pose proof (Hrange v Hv). pose proof (Hfit mn mx Imn Imx). lia.
Qed.

End NormalizerShape.

(** ** The normaliser on numeric columns *)

Section NormalizerTotal.
Context {FL : Float64}.

Lemma normalize_column_numeric (df : frame) (c : string) :
  NoDup (columns df) ->
  (forall s, select df c = [s] -> numeric_dtype s) ->
  exists df1 d,
    normalize_column df c = Return (df1, d) /\
    (In c (columns df) -> exists s1, select df1 c = [s1] /\ float_dtype s1).
Proof.
  intros Hnd Hnum. unfold normalize_column.
  destruct (has_column df c) eqn:Hc.
  2:{ exists df, []. split; [reflexivity|]. intros Hin.
      apply has_column_In in Hin. congruence. }
  apply has_column_In in Hc.
  destruct (select_unique df c Hnd Hc) as [s Hs]. rewrite Hs.
  specialize (Hnum s Hs).
  assert (Sel : forall q, select (setitem df c q) c = [q]).
  { intros q. rewrite select_setitem_same, Hs. reflexivity. }
  destruct s as [xs|xs|xs]; [| |contradiction].
  - destruct xs as [|x r]; cbn [series_min series_max series_reduce obind].
    + destruct (scalar_ne (VFloat f_nan) (VFloat f_nan));
        cbn [series_sub obind scalar_sub series_div map];
        eexists; eexists; (split; [reflexivity|]); intros _;
        eexists; (split; [apply Sel|]); exact I.
    + destruct (scalar_ne (VInt (fold_left Z.max r x)) (VInt (fold_left Z.min r x)));
        cbn [series_sub obind scalar_sub series_div];
        eexists; eexists; (split; [reflexivity|]); intros _;
        eexists; (split; [apply Sel|]); exact I.
  - cbn [series_min series_max series_reduce].
    destruct (filter (fun x => negb (f_isnan x)) xs) as [|x r]; cbn [obind].
    + destruct (scalar_ne (VFloat f_nan) (VFloat f_nan));
        cbn [series_sub obind scalar_sub series_div];
        eexists; eexists; (split; [reflexivity|]); intros _;
        eexists; (split; [apply Sel|]); exact I.
    + destruct (scalar_ne (VFloat (fold_left f_max r x)) (VFloat (fold_left f_min r x)));
        cbn [series_sub obind scalar_sub series_div];
        eexists; eexists; (split; [reflexivity|]); intros _;
        eexists; (split; [apply Sel|]); exact I.
Qed.

Lemma normalize_columns_numeric (cs : list string) (df : frame) :
  NoDup (columns df) ->
  (forall c s, In c cs -> select df c = [s] -> numeric_dtype s) ->
  exists df' d,
    normalize_columns cs df = Return (df', d) /\
    forall c, In c cs -> In c (columns df) ->
      exists s', select df' c = [s'] /\ float_dtype s'.
Proof.
  revert df. induction cs as [|c cs IH]; intros df Hnd Hnum.
  - exists df, []. split; [reflexivity|]. intros c [].
  - destruct (normalize_column_numeric df c Hnd
                (fun s Hs => Hnum c s (or_introl eq_refl) Hs))
      as (df1 & d1 & E1 & F1).
    destruct (normalize_column_shape _ _ _ _ E1) as (C1 & N1).
    assert (Hnd1 : NoDup (columns df1)) by (rewrite C1; exact Hnd).
    assert (Hnum1 : forall c' s, In c' cs -> select df1 c' = [s] -> numeric_dtype s).
    { intros c' s Hc' Hs. destruct (string_dec c c') as [<-|Hne].
      - assert (Hin : In c (columns df)).
        { rewrite <- C1. apply has_column_In.
          apply has_column_select. rewrite Hs. discriminate. }
        destruct (F1 Hin) as (s1 & Hs1 & Fl). rewrite Hs in Hs1.
        inversion Hs1; subst. destruct s1; try contradiction; exact I.
      - rewrite (proj1 (normalize_column_other _ _ _ _ _ Hne E1)) in Hs.
        exact (Hnum c' s (or_intror Hc') Hs). }
    destruct (IH df1 Hnd1 Hnum1) as (df' & d' & E' & F').
    exists df', (d1 ++ d')%list. split.
    + simpl. rewrite E1. cbn [obind fst snd]. rewrite E'. reflexivity.
    + intros c' [<-|Hc'] Hin.
      * destruct (in_dec string_dec c cs) as [Hcs|Hcs].
        -- apply F'; [exact Hcs | rewrite C1; exact Hin].
        -- destruct (normalize_columns_other cs c Hcs _ _ _ E') as (S & _).
           rewrite S. exact (F1 Hin).
      * apply F'; [exact Hc' | rewrite C1; exact Hin].
Qed.

(** X4. On a table with pairwise distinct labels whose columns of the loop
    are int64 or float64 columns, the normaliser raises nothing, and each of
    those columns is a float64 column when the loop ends. *)
Theorem normaliser_total_on_numeric (cs : list string) (df : frame) :
  NoDup (columns df) ->
  (forall c s, In c cs -> select df c = [s] -> numeric_dtype s) ->
  exists df' d,
    normalize_columns cs df = Return (df', d) /\
    forall c, In c cs -> In c (columns df) ->
      exists s', select df' c = [s'] /\ float_dtype s'.
Proof. apply normalize_columns_numeric. Qed.

End NormalizerTotal.

(** ** What a run leaves in the files *)

Section RunEffects.
Context {FL : Float64} {HO : Host}.

Lemma prepare_labels_nrows (df df1 : frame) :
  prepare_labels df = Return df1 -> nrows df1 = nrows df.
Proof.
  unfold prepare_labels.
  destruct (has_column (rename df [("y", "class")]) "class").
  - destruct (select (rename df [("y", "class")]) "class") as [|s [|s' r]];
      try discriminate.
    intros H; inversion H; subst. reflexivity.
  - intros H; inversion H; subst. reflexivity.
Qed.

Lemma get_dummies_nrows (df enc : frame) (cs ps : list string) :
  get_dummies df cs ps = Return enc -> nrows enc = nrows df.
Proof.
  unfold get_dummies. destruct (select_many df cs) as [l|]; simpl; [|discriminate].
  destruct (negb (Nat.eqb (List.length ps) (List.length l))); [discriminate|].
  intros H; inversion H; subst. reflexivity.
Qed.

Lemma reindex_nrows (df out : frame) (target : list string) (fill : Z) :
  reindex df target fill = Return out -> nrows out = nrows df.
Proof.
  unfold reindex. destruct (has_duplicates (columns df)); [discriminate|].
  intros H; inversion H; subst. reflexivity.
Qed.

(** X13. A run that does not return a header, because it raised or because the
    input was not found, leaves every file as it was: the output is written
    only by a run that succeeds. *)
Theorem process_data_no_partial_output (input_path output_filename : string)
        (w : world) :
  (forall h, fst (process_data input_path output_filename w) <> Return (Some h)) ->
  fs (snd (process_data input_path output_filename w)) = fs w.
Proof.
  rewrite process_data_run. cbv zeta.
  destruct (load w input_path) as [df|e].
  2:{ intros _. destruct e; reflexivity. }
  destruct (prepare_labels df) as [df1|e]; [|reflexivity].
  destruct (normalize_columns numeric_cols df1) as [n|e]; [|reflexivity].
  destruct (get_dummies (fst n) categorical_cols categorical_cols) as [enc|e];
    [|reflexivity].
  rewrite enforce_schema_run. cbv zeta.
  destruct (reindex (rename enc (column_mapping (columns enc))) target_columns 0)
    as [out|e]; [|reflexivity].
  intros H. exfalso. eapply H. reflexivity.
Qed.

(** X14. A run that returns a header read a file at the input path, wrote the
    output path and no other; what it wrote is the text of a table with the
    target columns and as many rows as the table that was read. *)
Theorem process_data_output (input_path output_filename : string) (w : world)
        (h : string) :
  fst (process_data input_path output_filename w) = Return (Some h) ->
  exists text df df_final,
    fs w input_path = Some text /\
    parse_csv text = Return df /\
    columns df_final = target_columns /\
    nrows df_final = nrows df /\
    fs (snd (process_data input_path output_filename w)) output_filename
      = Some (format_csv df_final) /\
    forall path, path <> output_filename ->
      fs (snd (process_data input_path output_filename w)) path = fs w path.
Proof.
  rewrite process_data_run. cbv zeta. unfold load.
  destruct (fs w input_path) as [text|];
    [|destruct (obstacle_at input_path) as [[|]|]; simpl; discriminate].
  destruct (parse_csv text) as [df|e] eqn:P; [|destruct e; simpl; discriminate].
  destruct (prepare_labels df) as [df1|e] eqn:L; [|simpl; discriminate].
  destruct (normalize_columns numeric_cols df1) as [n|e] eqn:N; [|simpl; discriminate].
  destruct (get_dummies (fst n) categorical_cols categorical_cols) as [enc|e] eqn:G;
    [|simpl; discriminate].
  rewrite enforce_schema_run. cbv zeta.
  destruct (reindex (rename enc (column_mapping (columns enc))) target_columns 0)
    as [out|e] eqn:R; [|simpl; discriminate].
  intros _. exists text, df, out.
  split; [reflexivity|]. split; [exact P|].
  split; [exact (reindex_columns _ _ _ _ R)|].
  split.
  - rewrite (reindex_nrows _ _ _ _ R). unfold rename, relabel. cbn [nrows].
    rewrite (get_dummies_nrows _ _ _ _ G).
    destruct n as [dfn dn]. cbn [fst] in *.
    destruct (normalize_columns_shape _ _ _ _ N) as (_ & Hn & _).
    rewrite Hn. exact (prepare_labels_nrows _ _ L).
  - cbn [fst snd fs]. rewrite String.eqb_refl. split; [reflexivity|].
    intros path Hne. apply String.eqb_neq in Hne. rewrite Hne. reflexivity.
Qed.

End RunEffects.

(** ** The entry point *)

Section EntryPoint.
Context {FL : Float64} {HO : Host}.

Lemma missing_report_lines (m : list string) :
  Forall (fun line => starts_with_H line = false) (missing_report m).
Proof.
  unfold missing_report. destruct m as [|c m].
  - repeat constructor.
  - apply Forall_app. split; [repeat constructor|].
    apply Forall_app. split; [|repeat constructor].
    apply Forall_forall. intros line Hin.
    apply in_map_iff in Hin. destruct Hin as [col [<- _]]. reflexivity.
Qed.

(** What [process_data] prints: no line of it starts with H. *)
Lemma process_data_lines (input_path output_filename : string) (w : world) :
  exists lines,
    stdout (snd (process_data input_path output_filename w)) = (stdout w ++ lines)%list /\
    Forall (fun line => starts_with_H line = false) lines.
Proof.
  rewrite process_data_run. cbv zeta.
  pose proof (missing_report_lines) as MR.
  destruct (load w input_path) as [df|e].
  2:{ destruct e; cbn [snd stdout printed]; rewrite <- ?app_assoc;
      eexists; (split; [reflexivity|]); repeat constructor. }
  destruct (prepare_labels df) as [df1|e].
  2:{ cbn [snd stdout printed]. eexists; split; [reflexivity|]. repeat constructor. }
  destruct (normalize_columns numeric_cols df1) as [n|e].
  2:{ cbn [snd stdout printed]. rewrite <- !app_assoc.
      eexists; split; [reflexivity|]. repeat constructor. }
  destruct (get_dummies (fst n) categorical_cols categorical_cols) as [enc|e].
  2:{ cbn [snd stdout printed]. rewrite <- !app_assoc.
      eexists; split; [reflexivity|]. repeat constructor. }
  rewrite enforce_schema_run. cbv zeta.
  destruct (reindex (rename enc (column_mapping (columns enc))) target_columns 0)
    as [out|e].
  - cbn [snd stdout printed]. rewrite <- !app_assoc.
    eexists; split; [reflexivity|].
    repeat (apply Forall_cons; [reflexivity|]).
    apply Forall_app. split; [apply MR | repeat constructor].
  - cbn [snd stdout printed]. rewrite <- !app_assoc.
    eexists; split; [reflexivity|].
    repeat (apply Forall_cons; [reflexivity|]). apply MR.
Qed.

(** The entry point, by cases on what it finds and on how [process_data]
    ends. *)
Lemma main_run (w : world) :
  main w =
    if is_some (fs w input_file) || is_some (obstacle_at input_file) then
      match process_data input_file output_file w with
      | (Raise e, w') => (Raise e, w')
      | (Return result_header, w') =>
          if truthy result_header then
            if String.eqb (match result_header with Some s => s | None => "" end)
                          expected_header
            then (Return tt, printed w' [passed_line])
            else (Return tt, printed w' [failed_line])
          else (Return tt, w')
      end
    else
      (Return tt,
       printed w ["File not found: bank-additional-full.csv";
                  "Please ensure 'bank-additional-full.csv' is in the current directory."]).
Proof.
  unfold main, bind at 1, path_exists. cbv zeta. unfold input_file, output_file.
  destruct (is_some (fs w "bank-additional-full.csv")
            || is_some (obstacle_at "bank-additional-full.csv")).
  - unfold bind at 1.
    destruct (process_data "bank-additional-full.csv" "dataBank_transformed.csv" w)
      as [[r|e] w']; [|reflexivity].
    destruct (truthy r); [|reflexivity].
    destruct (String.eqb _ expected_header); reflexivity.
  - unfold bind. rewrite !print_run, printed_printed. reflexivity.
Qed.

(** X16. The entry point has no handler of its own: when the input file exists
    it raises exactly what [process_data] raises and ends normally
    otherwise; and it writes no file beside what [process_data] wrote. *)
Theorem main_propagates (w : world) (text : string) :
  fs w input_file = Some text ->
  fst (main w) =
    match fst (process_data input_file output_file w) with
    | Raise e => Raise e
    | Return _ => Return tt
    end /\
  fs (snd (main w)) = fs (snd (process_data input_file output_file w)).
Proof.
  intros Hfs. rewrite main_run, Hfs. cbn [is_some orb].
  destruct (process_data input_file output_file w) as [[r|e] w'];
    [|split; reflexivity].
  cbn [fst snd]. destruct (truthy r); [|split; reflexivity].
  destruct (String.eqb _ expected_header); split; reflexivity.
Qed.

(** X17. Whatever the files hold, the entry point never prints the line that
    reports a failed header verification. *)
Theorem main_never_reports_failed (w : world) :
  exists lines,
    stdout (snd (main w)) = (stdout w ++ lines)%list /\
    ~ In failed_line lines.
Proof.
  rewrite main_run.
  destruct (is_some (fs w input_file) || is_some (obstacle_at input_file)).
  2:{ cbn [snd stdout printed]. eexists; split; [reflexivity|].
      intros [H|[H|[]]]; discriminate H. }
  destruct (process_data_lines input_file output_file w) as (lines & Hl & Hn).
  assert (NotIn : ~ In failed_line lines).
  { intros Hin. rewrite Forall_forall in Hn. specialize (Hn _ Hin). discriminate Hn. }
  pose proof (process_data_header input_file output_file w) as Hh.
  destruct (process_data input_file output_file w) as [[r|e] w'];
    cbn [fst snd] in *.
  2:{ exists lines. split; assumption. }
  destruct r as [s|]; cbn [truthy].
  2:{ exists lines. split; assumption. }
  rewrite (Hh s eq_refl), expected_header_join, String.eqb_refl.
  destruct (negb (String.eqb expected_header "")).
  - exists (lines ++ [passed_line])%list. cbn [snd stdout printed].
    rewrite Hl, app_assoc. split; [reflexivity|].
    intros Hin. apply in_app_or in Hin. destruct Hin as [Hin|[Hin|[]]].
    + exact (NotIn Hin).
    + assert (E : String.eqb passed_line failed_line = false) by reflexivity.
      apply String.eqb_neq in E. exact (E Hin).
  - exists lines. split; assumption.
Qed.

End EntryPoint.

(** ** From the encoded table to the output *)

Section Composition.
Context {FL : Float64} {HO : Host}.

Lemma NoDup_map_eq {A B : Type} (f : A -> B) (l : list A) (a b : A) :
  NoDup (map f l) -> In a l -> In b l -> f a = f b -> a = b.
Proof.
  induction l as [|x l IH]; intros Hnd Ha Hb E; [contradiction|].
  simpl in Hnd. inversion Hnd as [|? ? Hnot Hnd']; subst.
  destruct Ha as [->|Ha], Hb as [->|Hb].
  - reflexivity.
  - exfalso. apply Hnot. rewrite E. apply in_map; exact Hb.
  - exfalso. apply Hnot. rewrite <- E. apply in_map; exact Ha.
  - apply IH; assumption.
Qed.

Lemma columns_renamed (enc : frame) :
  columns (rename enc (column_mapping (columns enc))) = map final_col (columns enc).
Proof. rewrite rename_column_mapping. apply columns_relabel. Qed.

Lemma cols_renamed (enc : frame) (l : string) (s : series) :
  In (l, s) (cols enc) ->
  In (final_col l, s) (cols (rename enc (column_mapping (columns enc)))).
Proof.
  intros Hin. rewrite rename_column_mapping. unfold relabel. cbn [cols].
  apply in_map_iff. exists (l, s). split; [reflexivity | exact Hin].
Qed.

Lemma In_select (df : frame) (l : string) (s : series) :
  In (l, s) (cols df) -> In s (select df l).
Proof.
  intros Hin. unfold select. apply in_map_iff. exists (l, s).
  split; [reflexivity|]. apply filter_In. split; [exact Hin|].
  apply String.eqb_refl.
Qed.

Lemma select_of_column (df : frame) (l : string) (s : series) :
  NoDup (columns df) -> In (l, s) (cols df) -> select df l = [s].
Proof.
  intros Hnd Hin.
  assert (Hl : In l (columns df)).
  { unfold columns. apply in_map_iff. exists (l, s). split; [reflexivity|exact Hin]. }
  destruct (select_unique df l Hnd Hl) as [s0 Hs0].
  pose proof (In_select df l s Hin) as Hs. rewrite Hs0 in Hs.
  destruct Hs as [->|[]]. exact Hs0.
Qed.

Lemma reindex_returns (df out : frame) (target : list string) (fill : Z) :
  reindex df target fill = Return out ->
  NoDup (columns df) /\
  forall col s, NoDup target -> In col target -> select df col = [s] ->
    select out col = [s].
Proof.
  unfold reindex. destruct (has_duplicates (columns df)) eqn:D; [discriminate|].
  intros H; inversion H; subst. split; [apply has_duplicates_NoDup; exact D|].
  intros col s Hnd Hin Hs.
  rewrite (select_tabulate _ _ _ col Hnd Hin), Hs. reflexivity.
Qed.

(** X9. Two different columns of the encoded table that the rename pass
    gives the same name stop the run: the reindexing raises ValueError and no file
    is written. *)
Theorem rename_collision_raises (enc : frame) (output_filename : string)
        (w : world) (c1 c2 : string) :
  In c1 (columns enc) -> In c2 (columns enc) -> c1 <> c2 ->
  final_col c1 = final_col c2 ->
  let r := enforce_schema (rename enc (column_mapping (columns enc)))
                          output_filename w in
  fst r = Raise ValueError /\ fs (snd r) = fs w.
Proof.
  intros H1 H2 Hne E. cbv zeta. rewrite enforce_schema_run. cbv zeta.
  rewrite reindex_duplicate_labels; [split; reflexivity|].
  rewrite columns_renamed. intros Hnd.
  exact (Hne (NoDup_map_eq final_col _ _ _ Hnd H1 H2 E)).
Qed.

Lemma encoded_column_in_output (enc out : frame) (l : string) (s : series) :
  reindex (rename enc (column_mapping (columns enc))) target_columns 0 = Return out ->
  In (l, s) (cols enc) ->
  In (final_col l) target_columns ->
  select out (final_col l) = [s].
Proof.
  intros R Hin Ht.
  destruct (reindex_returns _ _ _ _ R) as [Hnd Hsel].
  apply (Hsel _ _ target_columns_NoDup Ht).
  apply select_of_column; [exact Hnd|]. apply cols_renamed; exact Hin.
Qed.

(** X10. Every column of the encoded table whose final name is a target
    column is in the output under that name, as it was, whenever the
    reindexing returns. *)
Theorem output_keeps_encoded_column (enc out : frame) (l : string) (s : series) :
  reindex (rename enc (column_mapping (columns enc))) target_columns 0 = Return out ->
  In (l, s) (cols enc) ->
  In (final_col l) target_columns ->
  select out (final_col l) = [s].
Proof. apply encoded_column_in_output. Qed.

Lemma get_dummies_present (df enc : frame) :
  get_dummies df categorical_cols categorical_cols = Return enc ->
  forall c, In c categorical_cols -> has_column df c = true.
Proof.
  intros G c Hc. destruct (has_column df c) eqn:E; [reflexivity|].
  rewrite (get_dummies_absent df c Hc E) in G. discriminate.
Qed.

(** A column that is not categorical goes through the encoder as it is. *)
Lemma get_dummies_keeps (df enc : frame) (l : string) (s : series) :
  get_dummies df categorical_cols categorical_cols = Return enc ->
  In (l, s) (cols df) -> ~ In l categorical_cols ->
  In (l, s) (cols enc).
Proof.
  unfold get_dummies.
  destruct (select_many df categorical_cols) as [sel|]; cbn [obind]; [|discriminate].
  destruct (negb (Nat.eqb (List.length categorical_cols) (List.length sel)));
    [discriminate|].
  intros H Hin Hnot. injection H as <-. cbn [cols drop].
  apply in_or_app; left. apply filter_In. split; [exact Hin|].
  change (negb (mem l categorical_cols) = true).
  destruct (mem l categorical_cols) eqn:M; [|reflexivity].
  apply mem_In in M. contradiction.
Qed.

(** X11. From the normalised table to the output: a value [v] observed in a
    categorical column of strings has its indicator column in the output,
    under the final name of the encoder's name for it, provided that name is
    a target column and the run gets through the reindexing. *)
Theorem indicator_in_output (df enc out : frame) (c : string)
        (xs : list (option string)) (v : string) :
  NoDup (columns df) ->
  get_dummies df categorical_cols categorical_cols = Return enc ->
  reindex (rename enc (column_mapping (columns enc))) target_columns 0 = Return out ->
  In c categorical_cols -> select df c = [SObj xs] -> In (Some v) xs ->
  In (final_col (c ++ "_" ++ v)) target_columns ->
  select out (final_col (c ++ "_" ++ v)) =
    [SInt (map (fun o => match o with
                         | Some x => indicator (String.eqb x v)
                         | None => 0%Z
                         end) xs)].
Proof.
  intros Hnd G R Hc Hs Hv Ht.
  destruct (get_dummies_all_present df Hnd (get_dummies_present df enc G))
    as (enc' & G' & _ & Hobj & _).
  rewrite G in G'. inversion G'; subst enc'.
  apply (encoded_column_in_output enc out _ _ R); [|exact Ht].
  exact (Hobj c xs v Hc Hs Hv).
Qed.

(** X12. A column of the normalised table that is not categorical and whose
    final name is a target column is in the output as it was. *)
Theorem kept_column_in_output (df enc out : frame) (l : string) (s : series) :
  get_dummies df categorical_cols categorical_cols = Return enc ->
  reindex (rename enc (column_mapping (columns enc))) target_columns 0 = Return out ->
  In (l, s) (cols df) -> ~ In l categorical_cols ->
  In (final_col l) target_columns ->
  select out (final_col l) = [s].
Proof.
  intros G R Hin Hnot Ht.
  apply (encoded_column_in_output enc out _ _ R); [|exact Ht].
  exact (get_dummies_keeps df enc l s G Hin Hnot).
Qed.

End Composition.

(** ** The guards of the binary substitutions *)

Section Guards.

Lemma contains_false_prefix (old s : string) :
  PyStr.contains old s = false -> String.prefix old s = false.
Proof.
  destruct s as [|c s]; simpl; [auto|].
  intros H. apply orb_false_iff in H. destruct H as [H _].
  exact H.
Qed.

(** Replacing a substring that does not occur changes nothing. *)
Lemma replace_absent (s old new : string) :
  PyStr.contains old s = false -> PyStr.replace s old new = s.
Proof.
  unfold PyStr.replace. induction s as [|c s IH]; intros H; [reflexivity|].
  pose proof (contains_false_prefix _ _ H) as P.
  cbn [PyStr.replace_go]. rewrite P.
  simpl in H. apply orb_false_iff in H. destruct H as [_ H].
  rewrite (IH H). reflexivity.
Qed.

(** X8. The tests [if old in final_col] of lines 93-100 change nothing: each
    guarded substitution is the plain [str.replace], so the final name is
    the prefix pass followed by the six replacements. *)
Theorem final_col_unguarded (col : string) :
  (forall old new s, binary_adjust old new s = PyStr.replace s old new) /\
  final_col col =
    PyStr.replace
      (PyStr.replace
         (PyStr.replace
            (PyStr.replace
               (PyStr.replace
                  (PyStr.replace (prefix_pass categorical_cols col)
                                 "default=no" "default=0")
                  "default=yes" "default=1")
               "housing=no" "housing=0")
            "housing=yes" "housing=1")
         "loan=no" "loan=0")
      "loan=yes" "loan=1".
Proof.
  assert (G : forall old new s, binary_adjust old new s = PyStr.replace s old new).
  { intros old new s. unfold binary_adjust.
    destruct (PyStr.contains old s) eqn:E; [reflexivity|].
    symmetry. apply replace_absent. exact E. }
  split; [exact G|].
  unfold final_col. cbv zeta. rewrite !G. reflexivity.
Qed.

End Guards.

(** ** When the whole run succeeds *)

Section Totality.
Context {FL : Float64} {HO : Host}.

Lemma rename_y_class (df : frame) :
  rename df [("y", "class")] = relabel df y_class.
Proof. reflexivity. Qed.

Lemma NoDup_y_class (l : list string) :
  NoDup l -> ~ (In "y" l /\ In "class" l) -> NoDup (map y_class l).
Proof.
  induction l as [|x l IH]; intros Hnd Hyc; [constructor|].
  inversion Hnd as [|? ? Hnot Hnd']; subst. simpl. constructor.
  - intros Hin. apply in_map_iff in Hin. destruct Hin as [z [E Hz]].
    unfold y_class in E.
    destruct (String.eqb z "y") eqn:Ez, (String.eqb x "y") eqn:Ex.
    + apply String.eqb_eq in Ez, Ex. subst. contradiction.
    + apply String.eqb_eq in Ez. subst z x.
      apply Hyc. split; [right; exact Hz | left; reflexivity].
    + apply String.eqb_eq in Ex. subst z x.
      apply Hyc. split; [left; reflexivity | right; exact Hz].
    + subst z. contradiction.
  - apply IH; [exact Hnd'|]. intros [Hy Hc]. apply Hyc. split; right; assumption.
Qed.

Lemma select_relabel_y_class (df : frame) (c : string) :
  c <> "y" -> c <> "class" -> select (relabel df y_class) c = select df c.
Proof.
  intros Hy Hc. unfold select, relabel. cbn [cols].
  induction (cols df) as [|[l x] r IH]; [reflexivity|].
  cbn [map filter fst snd]. unfold y_class at 1.
  destruct (String.eqb l "y") eqn:El.
  - apply String.eqb_eq in El. subst l.
    assert (E1 : String.eqb c "class" = false) by (apply String.eqb_neq; exact Hc).
    assert (E2 : String.eqb c "y" = false) by (apply String.eqb_neq; exact Hy).
    rewrite E1, E2. exact IH.
  - destruct (String.eqb c l); cbn [map snd]; rewrite IH; reflexivity.
Qed.

Lemma prepare_labels_total (df : frame) :
  NoDup (columns df) ->
  ~ (In "y" (columns df) /\ In "class" (columns df)) ->
  exists df1,
    prepare_labels df = Return df1 /\
    columns df1 = map y_class (columns df) /\
    NoDup (columns df1) /\
    forall c, c <> "y" -> c <> "class" -> select df1 c = select df c.
Proof.
  intros Hnd Hyc. unfold prepare_labels. rewrite rename_y_class.
  assert (C : columns (relabel df y_class) = map y_class (columns df))
    by apply columns_relabel.
  assert (N : NoDup (columns (relabel df y_class)))
    by (rewrite C; apply NoDup_y_class; assumption).
  destruct (has_column (relabel df y_class) "class") eqn:Hc.
  - apply has_column_In in Hc.
    destruct (select_unique _ _ N Hc) as [s Hs]. rewrite Hs.
    eexists. split; [reflexivity|].
    rewrite columns_setitem. split; [exact C|]. split; [exact N|].
    intros c Hy Hcl. rewrite select_setitem_other by congruence.
    apply select_relabel_y_class; assumption.
  - eexists. split; [reflexivity|]. split; [exact C|]. split; [exact N|].
    intros c Hy Hcl. apply select_relabel_y_class; assumption.
Qed.

(** X5. The label step on a table with pairwise distinct labels that does
    not hold both a column y and a column class: it raises nothing, the
    labels stay pairwise distinct, only the label y changes, and every
    column other than the label column is kept. *)
Theorem label_step_total (df : frame) :
  NoDup (columns df) ->
  ~ (In "y" (columns df) /\ In "class" (columns df)) ->
  exists df1,
    prepare_labels df = Return df1 /\
    columns df1 = map y_class (columns df) /\
    NoDup (columns df1) /\
    forall c, c <> "y" -> c <> "class" -> select df1 c = select df c.
Proof. apply prepare_labels_total. Qed.

Lemma numeric_not_label :
  forallb (fun c => negb (String.eqb c "y") && negb (String.eqb c "class"))
          (numeric_cols ++ categorical_cols) = true.
Proof. reflexivity. Qed.

Lemma not_label (c : string) :
  In c (numeric_cols ++ categorical_cols) -> c <> "y" /\ c <> "class".
Proof.
  intros Hin. pose proof numeric_not_label as H.
  rewrite forallb_forall in H. specialize (H c Hin).
  apply andb_true_iff in H. destruct H as [H1 H2].
  apply negb_true_iff in H1, H2. apply String.eqb_neq in H1, H2.
  split; assumption.
Qed.

(** X15. A file that parses into a table with pairwise distinct labels, without
    both y and class, with all ten categorical columns and with numeric
    columns of a numeric type gets through the label step, the normaliser
    and the encoder; the run then returns the expected header when the
    final names of the encoded columns are pairwise distinct, and raises
    ValueError when they are not. *)
Theorem process_data_total (input_path output_filename text : string)
        (w : world) (df : frame) :
  fs w input_path = Some text ->
  parse_csv text = Return df ->
  NoDup (columns df) ->
  ~ (In "y" (columns df) /\ In "class" (columns df)) ->
  (forall c s, In c numeric_cols -> select df c = [s] -> numeric_dtype s) ->
  (forall c, In c categorical_cols -> In c (columns df)) ->
  exists df1 normalized enc,
    prepare_labels df = Return df1 /\
    normalize_columns numeric_cols df1 = Return normalized /\
    get_dummies (fst normalized) categorical_cols categorical_cols = Return enc /\
    (NoDup (map final_col (columns enc)) ->
     fst (process_data input_path output_filename w) = Return (Some expected_header)) /\
    (~ NoDup (map final_col (columns enc)) ->
     fst (process_data input_path output_filename w) = Raise ValueError).
Proof.
  intros Hfs Hparse Hnd Hyc Hnum Hcat.
  destruct (prepare_labels_total df Hnd Hyc) as (df1 & L & C1 & N1 & S1).
  assert (Hnum1 : forall c s, In c numeric_cols -> select df1 c = [s] -> numeric_dtype s).
  { intros c s Hc Hs.
    destruct (not_label c (in_or_app _ _ _ (or_introl Hc))) as [Hy Hcl].
    rewrite (S1 c Hy Hcl) in Hs. exact (Hnum c s Hc Hs). }
  destruct (normalize_columns_numeric numeric_cols df1 N1 Hnum1) as (df2 & d & N & _).
  destruct (normalize_columns_shape _ _ _ _ N) as (C2 & _ & _).
  assert (N2 : NoDup (columns df2)) by (rewrite C2; exact N1).
  assert (Hcat2 : forall c, In c categorical_cols -> has_column df2 c = true).
  { intros c Hc. apply has_column_In. rewrite C2, C1.
    destruct (not_label c (in_or_app _ _ _ (or_intror Hc))) as [Hy _].
    apply in_map_iff. exists c. split; [|exact (Hcat c Hc)].
    unfold y_class. apply String.eqb_neq in Hy. rewrite Hy. reflexivity. }
  destruct (get_dummies_all_present df2 N2 Hcat2) as (enc & G & _).
  exists df1, (df2, d), enc. cbn [fst].
  split; [exact L|]. split; [exact N|]. split; [exact G|].
  assert (Run : process_data input_path output_filename w =
                enforce_schema (rename enc (column_mapping (columns enc)))
                  output_filename
                  (printed (printed w [reading_line input_path])
                           ["Normalizing numerical columns..."])).
  { rewrite process_data_run. cbv zeta. unfold load.
    rewrite Hfs, Hparse, L, N. cbn [fst]. rewrite G. reflexivity. }
  rewrite Run, enforce_schema_run. cbv zeta. split.
  - intros Hd. rewrite <- columns_renamed in Hd.
    destruct (reindex_distinct _ Hd) as (out & R & Hc & _).
    rewrite R. cbn [fst]. rewrite Hc, expected_header_join. reflexivity.
  - intros Hd. rewrite <- columns_renamed in Hd.
    rewrite (reindex_duplicate_labels _ _ _ Hd). reflexivity.
Qed.

End Totality.

(** ** The properties on concrete files *)

(** ** The range of the normalised values, on float64 *)

Section Range.
Import IEEE.

(** C3. Step 3 of the script announces that the numeric features are scaled
    to the range [0, 1], and guards the division against [max == min].  On
    float64 the values of a numeric column whose maximum differs from its
    minimum do not all end in that range.  A column read from a file with an
    empty cell has minimum 30.0 and maximum 60.0, which differ, and its
    missing cell is NaN after the normalisation as before it: NaN is not in
    [0, 1].  An int64 column that holds the least and the greatest int64 has
    a spread that wraps around to -1, and its cell 0 becomes 2^63. *)
Theorem C3_range_violated :
  (series_min (SFloat [IEEE.of_Z 30; PrimFloat.nan; IEEE.of_Z 60])
     = Return (VFloat (IEEE.of_Z 30)) /\
   series_max (SFloat [IEEE.of_Z 30; PrimFloat.nan; IEEE.of_Z 60])
     = Return (VFloat (IEEE.of_Z 60)) /\
   scalar_ne (VFloat (IEEE.of_Z 60)) (VFloat (IEEE.of_Z 30)) = true /\
   (r <- normalize_columns numeric_cols IEEE.age_missing ;;
    Return (select (fst r) "age"))%outcome
     = Return [SFloat [IEEE.of_Z 0; PrimFloat.nan; IEEE.of_Z 1]] /\
   map IEEE.in_unit [IEEE.of_Z 0; PrimFloat.nan; IEEE.of_Z 1]
     = [true; false; true]) /\
  (series_min (SInt [- 2 ^ 63; 0; 2 ^ 63 - 1]%Z) = Return (VInt (- 2 ^ 63)) /\
   series_max (SInt [- 2 ^ 63; 0; 2 ^ 63 - 1]%Z) = Return (VInt (2 ^ 63 - 1)) /\
   scalar_ne (VInt (2 ^ 63 - 1)) (VInt (- 2 ^ 63)) = true /\
   (r <- normalize_columns numeric_cols IEEE.age_wide ;;
    Return (select (fst r) "age"))%outcome
     = Return [SFloat [PrimFloat.neg_zero; IEEE.of_Z (2 ^ 63); IEEE.of_Z 1]] /\
   map IEEE.in_unit [PrimFloat.neg_zero; IEEE.of_Z (2 ^ 63); IEEE.of_Z 1]
     = [true; false; true]).
Proof.
  repeat split; reflexivity.
Qed.

End Range.

Section Examples.
Import Exact.

Lemma C2_rename_pass_witness :
  prefix_pass categorical_cols ("job" ++ "_" ++ "admin.") = "job" ++ "=" ++ "admin."
  /\ final_col "housing_yes" = "housing=1".
Proof.
  destruct C2_rename_pass as (Hprefix & _ & _ & Hfinal & _).
  split.
  - apply Hprefix. simpl. tauto.
  - rewrite Hfinal. reflexivity.
Defined.

Lemma small_frame_NoDup : NoDup (columns small_frame).
Proof. repeat constructor; simpl; intuition discriminate. Qed.

Lemma C1_strict_reindex_witness :
  NoDup (columns small_frame) /\
  exists out,
    reindex small_frame target_columns 0 = Return out /\
    columns out = target_columns /\
    List.length (columns out) = 63 /\
    nrows out = nrows small_frame.
Proof.
  split; [exact small_frame_NoDup|].
  destruct (C1_strict_reindex small_frame small_frame_NoDup)
    as (out & Hr & Hc & Hl & Hn & _).
  exists out. repeat split; assumption.
Defined.

(** The output of the reindexing has 63 columns, not 62. *)
Lemma C1_counterexample :
  exists out,
    reindex small_frame target_columns 0 = Return out /\
    List.length (columns out) <> 62.
Proof.
  destruct (reindex_distinct small_frame small_frame_NoDup)
    as (out & Hr & Hc & _).
  exists out. split; [exact Hr|].
  rewrite Hc. vm_compute. discriminate.
Qed.

Lemma C4_constant_column_zero_witness :
  normalize_column pdays_frame "pdays" =
    Return (setitem pdays_frame "pdays" (SFloat (repeat f_zero 2)), []).
Proof.
  assert (Hin : In "pdays" numeric_cols) by (simpl; tauto).
  destruct (C4_constant_column_zero pdays_frame "pdays" (SInt [999%Z; 999%Z])
              (VInt 999) (VInt 999) Hin eq_refl eq_refl eq_refl eq_refl)
    as [H _].
  exact H.
Defined.

Lemma C6_label_column_witness :
  exists df' s' c',
    prepare_labels pdays_frame = Return df' /\
    select df' "class" = [s'] /\
    nth_error (cells s') 0 = Some c' /\ is_number 1 c'.
Proof.
  destruct (C6_label_column pdays_frame) as (_ & _ & _ & H).
  destruct (H (SObj [Some "yes"; Some "maybe"]) eq_refl)
    as (df' & s' & Hp & _ & Hs & _ & Hrow).
  destruct (Hrow 0 (CStr "yes") eq_refl) as (c' & Hc' & Hyes & _).
  exists df', s', c'. repeat split; auto.
Defined.

Lemma C7_missing_input_witness :
  process_data "bank-additional-full.csv" "dataBank_transformed.csv" empty_disk =
    (Return None,
     printed empty_disk
       ["Reading data from: bank-additional-full.csv";
        "Error: The file 'bank-additional-full.csv' was not found. Please check the file path."]).
Proof.
  destruct (C7_missing_input (HO := exact_host)
              "bank-additional-full.csv" "dataBank_transformed.csv"
              empty_disk eq_refl eq_refl) as [H _].
  exact H.
Defined.

(** A path that holds a directory resolves to no readable file, and
    [process_data] raises to its caller instead of returning None. *)
Lemma C7_counterexample :
  fs empty_disk "reports" = None /\
  obstacle_at "reports" = Some Directory /\
  fst (process_data "reports" "dataBank_transformed.csv" empty_disk)
    = Raise IsADirectoryError /\
  fst (process_data "reports" "dataBank_transformed.csv" empty_disk)
    <> Return None.
Proof.
  assert (R : fst (process_data "reports" "dataBank_transformed.csv" empty_disk)
              = Raise IsADirectoryError) by (vm_compute; reflexivity).
  repeat split; try reflexivity; try exact R.
  rewrite R. discriminate.
Qed.

Lemma C8_missing_columns_witness :
  exists df_final,
    reindex small_frame target_columns 0 = Return df_final /\
    fst (enforce_schema small_frame "out.csv" empty_disk)
      = Return (Some (PyStr.join "," target_columns)) /\
    fs (snd (enforce_schema small_frame "out.csv" empty_disk)) "out.csv"
      = Some (format_csv df_final).
Proof.
  destruct (C8_missing_columns small_frame "out.csv" empty_disk)
    as (_ & _ & _ & _ & _ & H).
  destruct (H small_frame_NoDup) as (df_final & Hr & Hf & Hw & _).
  exists df_final. repeat split; assumption.
Defined.

Lemma C9_deterministic_witness :
  fst (process_data "bank-additional-full.csv" "dataBank_transformed.csv"
         (disk bank_text)) =
  fst (process_data "bank-additional-full.csv" "dataBank_transformed.csv"
         (disk_again bank_text)).
Proof.
  destruct (C9_deterministic "bank-additional-full.csv" "dataBank_transformed.csv"
              (disk bank_text) (disk_again bank_text) eq_refl) as (H & _).
  exact H.
Defined.

Lemma bank_text_run :
  fst (process_data "bank-additional-full.csv" "dataBank_transformed.csv"
         (disk bank_text)) = Return (Some expected_header).
Proof. vm_compute. reflexivity. Qed.

Lemma C10_returned_header_witness :
  expected_header = PyStr.join "," target_columns /\
  main (disk bank_text) =
    (Return tt,
     printed (snd (process_data "bank-additional-full.csv"
                     "dataBank_transformed.csv" (disk bank_text)))
             [passed_line]).
Proof.
  destruct (C10_returned_header "bank-additional-full.csv"
              "dataBank_transformed.csv" (disk bank_text) expected_header
              bank_text_run) as (_ & Hj & _ & Hm).
  split; [exact Hj | exact (Hm eq_refl eq_refl)].
Defined.

(** The header of a run that succeeds lists 63 names, not 62. *)
Lemma C10_counterexample :
  exists h,
    fst (process_data "bank-additional-full.csv" "dataBank_transformed.csv"
           (disk bank_text)) = Return (Some h) /\
    List.length (PyStr.split "," h) <> 62.
Proof.
  exists expected_header. split; [exact bank_text_run|].
  vm_compute. discriminate.
Qed.

(** C5, on a table that has the column job and lacks other categorical
    columns: the file is read, the column job is there, and the encoder
    raises KeyError instead of producing indicator columns for job; so does
    [process_data], and the entry point with it. *)
Theorem C5_encoder_absent_column :
  exists df,
    parse_csv job_only_text = Return df /\
    has_column df "job" = true /\
    has_column df "marital" = false /\
    get_dummies df categorical_cols categorical_cols = Raise KeyError /\
    fst (process_data "bank-additional-full.csv" "dataBank_transformed.csv"
           (disk job_only_text)) = Raise KeyError /\
    fst (main (disk job_only_text)) = Raise KeyError.
Proof.
  eexists. split; [vm_compute; reflexivity|].
  repeat split; vm_compute; reflexivity.
Qed.

End Examples.

(** ** More properties on concrete tables *)

Section MoreExamples.
Import Exact Cases.

Lemma age_frame_NoDup : NoDup (columns age_frame).
Proof. repeat constructor; simpl; intuition discriminate. Qed.

Lemma bank_frame_NoDup : NoDup (columns bank_frame).
Proof. apply has_duplicates_NoDup. reflexivity. Qed.

(** A check of the types of the columns of a loop, by evaluation. *)
Lemma numeric_by_check (df : frame) (cs : list string) :
  forallb (fun c => forallb numeric_dtypeb (select df c)) cs = true ->
  forall c s, In c cs -> select df c = [s] -> numeric_dtype s.
Proof.
  intros H c s Hc Hs. rewrite forallb_forall in H. specialize (H c Hc).
  rewrite Hs in H. simpl in H. destruct s; try exact I. discriminate H.
Qed.

Lemma age_frame_numeric (c : string) (s : series) :
  In c numeric_cols -> select age_frame c = [s] -> numeric_dtype s.
Proof. apply numeric_by_check. reflexivity. Qed.

Lemma bank_frame_numeric (c : string) (s : series) :
  In c numeric_cols -> select bank_frame c = [s] -> numeric_dtype s.
Proof. apply numeric_by_check. reflexivity. Qed.

Lemma bank_frame_categorical (c : string) :
  In c categorical_cols -> In c (columns bank_frame).
Proof.
  intros Hin. apply mem_In. simpl in Hin.
  repeat (destruct Hin as [<-|Hin]; [reflexivity|]). contradiction.
Qed.

Lemma bank_frame_has (c : string) :
  In c categorical_cols -> has_column bank_frame c = true.
Proof. intros Hc. apply has_column_In. exact (bank_frame_categorical c Hc). Qed.

Lemma bank_encoded_eq :
  get_dummies bank_frame categorical_cols categorical_cols = Return bank_encoded.
Proof.
  destruct (get_dummies_all_present bank_frame bank_frame_NoDup bank_frame_has)
    as (enc & G & _).
  unfold bank_encoded. rewrite G. reflexivity.
Qed.

Lemma bank_renamed_NoDup :
  NoDup (columns (rename bank_encoded (column_mapping (columns bank_encoded)))).
Proof. apply has_duplicates_NoDup. vm_compute. reflexivity. Qed.

Lemma bank_output_eq :
  reindex (rename bank_encoded (column_mapping (columns bank_encoded)))
          target_columns 0 = Return bank_output.
Proof.
  destruct (reindex_distinct _ bank_renamed_NoDup) as (out & R & _).
  unfold bank_output. rewrite R. reflexivity.
Qed.

Lemma normaliser_keeps_shape_witness :
  exists df' d,
    normalize_columns numeric_cols age_frame = Return (df', d) /\
    columns df' = columns age_frame.
Proof.
  destruct (normalize_columns_numeric numeric_cols age_frame age_frame_NoDup
              age_frame_numeric) as (df' & d & E & _).
  destruct (normaliser_keeps_shape _ _ _ _ E) as (C & _).
  exists df', d. split; [exact E | exact C].
Defined.

Lemma normalize_columns_absent_witness :
  normalize_columns numeric_cols job_frame = Return (job_frame, []).
Proof.
  apply normalize_columns_absent. intros c Hin. simpl in Hin.
  repeat (destruct Hin as [<-|Hin]; [reflexivity|]). contradiction.
Defined.

Lemma normalize_column_int_witness :
  exists mn mx,
    (mn < mx)%Z /\
    normalize_column age_frame "age" =
      Return (setitem age_frame "age"
                (SFloat (map (fun v => f_div (f_of_Z (v - mn)) (f_of_Z (mx - mn)))
                             [30%Z; 60%Z])),
              [("age", VInt (mx - mn))]).
Proof.
  destruct (normalize_column_int age_frame "age" [30%Z; 60%Z] eq_refl)
    as (mn & mx & _ & _ & Hlt & _ & Hrun).
  - exists 30%Z, 60%Z. simpl. intuition discriminate.
  - intros a b Ha Hb. simpl in Ha, Hb.
    destruct Ha as [<-|[<-|[]]], Hb as [<-|[<-|[]]]; reflexivity.
  - exists mn, mx. split; assumption.
Defined.

Lemma normaliser_total_on_numeric_witness :
  exists df' d, normalize_columns numeric_cols age_frame = Return (df', d).
Proof.
  destruct (normaliser_total_on_numeric numeric_cols age_frame age_frame_NoDup
              age_frame_numeric) as (df' & d & E & _).
  exists df', d. exact E.
Defined.

Lemma label_step_total_witness :
  exists df1, prepare_labels pdays_frame = Return df1 /\ NoDup (columns df1).
Proof.
  destruct (label_step_total pdays_frame) as (df1 & E & _ & N & _).
  - repeat constructor; simpl; intuition discriminate.
  - simpl. intuition discriminate.
  - exists df1. split; assumption.
Defined.

Lemma encoder_all_present_witness :
  exists enc,
    get_dummies bank_frame categorical_cols categorical_cols = Return enc /\
    nrows enc = 2.
Proof.
  destruct (encoder_all_present bank_frame bank_frame_NoDup bank_frame_has)
    as (enc & E & N & _).
  exists enc. split; [exact E | exact N].
Defined.

Lemma encoder_absent_column_witness :
  get_dummies job_frame categorical_cols categorical_cols = Raise KeyError.
Proof.
  apply (encoder_absent_column job_frame "marital").
  - simpl. tauto.
  - reflexivity.
Defined.

Lemma rename_collision_raises_witness :
  fst (enforce_schema
         (rename collision_frame (column_mapping (columns collision_frame)))
         "out.csv" empty_disk) = Raise ValueError.
Proof.
  destruct (rename_collision_raises collision_frame "out.csv" empty_disk
              "default_no" "default_0") as [H _].
  - simpl. tauto.
  - simpl. tauto.
  - discriminate.
  - reflexivity.
  - exact H.
Defined.

Lemma housing_yes_encoded :
  In ("housing_yes", SInt [1%Z; 0%Z]) (cols bank_encoded).
Proof.
  destruct (get_dummies_all_present bank_frame bank_frame_NoDup bank_frame_has)
    as (enc & G & _ & Hobj & _).
  rewrite bank_encoded_eq in G. injection G as <-.
  apply (Hobj "housing" [Some "yes"; Some "no"] "yes").
  - simpl. tauto.
  - reflexivity.
  - left. reflexivity.
Qed.

Lemma In_target (col : string) : mem col target_columns = true -> In col target_columns.
Proof. apply mem_In. Qed.

Lemma output_keeps_encoded_column_witness :
  select bank_output (final_col "housing_yes") = [SInt [1%Z; 0%Z]].
Proof.
  apply (output_keeps_encoded_column bank_encoded bank_output "housing_yes").
  - exact bank_output_eq.
  - exact housing_yes_encoded.
  - apply In_target. reflexivity.
Defined.

Lemma indicator_in_output_witness :
  select bank_output (final_col ("housing" ++ "_" ++ "yes")) =
    [SInt (map (fun o => match o with
                         | Some x => indicator (String.eqb x "yes")
                         | None => 0%Z
                         end) [Some "yes"; Some "no"])].
Proof.
  apply (indicator_in_output bank_frame bank_encoded bank_output "housing"
           [Some "yes"; Some "no"] "yes").
  - exact bank_frame_NoDup.
  - exact bank_encoded_eq.
  - exact bank_output_eq.
  - simpl. tauto.
  - reflexivity.
  - left. reflexivity.
  - apply In_target. reflexivity.
Defined.

Lemma kept_column_in_output_witness :
  select bank_output (final_col "age") = [SInt [30%Z; 60%Z]].
Proof.
  apply (kept_column_in_output bank_frame bank_encoded bank_output "age").
  - exact bank_encoded_eq.
  - exact bank_output_eq.
  - left. reflexivity.
  - simpl. intuition discriminate.
  - apply In_target. reflexivity.
Defined.

Lemma job_only_run :
  fst (process_data input_file output_file (disk job_only_text)) = Raise KeyError.
Proof. vm_compute. reflexivity. Qed.

Lemma process_data_no_partial_output_witness :
  fs (snd (process_data input_file output_file (disk job_only_text)))
    = fs (disk job_only_text).
Proof.
  apply process_data_no_partial_output.
  intros h. rewrite job_only_run. discriminate.
Defined.

Lemma process_data_output_witness :
  exists df_final,
    columns df_final = target_columns /\
    fs (snd (process_data input_file output_file (disk bank_text))) output_file
      = Some (format_csv df_final).
Proof.
  destruct (process_data_output input_file output_file (disk bank_text)
              expected_header bank_text_run)
    as (text & df & df_final & _ & _ & C & _ & W & _).
  exists df_final. split; assumption.
Defined.

Lemma bank_text_parse : parse_csv bank_text = Return bank_frame.
Proof. vm_compute. reflexivity. Qed.

Lemma process_data_total_witness :
  exists df1 normalized enc,
    prepare_labels bank_frame = Return df1 /\
    normalize_columns numeric_cols df1 = Return normalized /\
    get_dummies (fst normalized) categorical_cols categorical_cols = Return enc.
Proof.
  destruct (process_data_total input_file output_file bank_text (disk bank_text)
              bank_frame eq_refl bank_text_parse bank_frame_NoDup)
    as (df1 & n & enc & L & N & G & _).
  - intros [_ Hc]. apply mem_In in Hc. discriminate Hc.
  - exact bank_frame_numeric.
  - exact bank_frame_categorical.
  - exists df1, n, enc. repeat split; assumption.
Defined.

Lemma main_propagates_witness :
  fst (main (disk job_only_text)) =
    match fst (process_data input_file output_file (disk job_only_text)) with
    | Raise e => Raise e
    | Return _ => Return tt
    end.
Proof.
  destruct (main_propagates (disk job_only_text) job_only_text eq_refl) as [H _].
  exact H.
Defined.

End MoreExamples.
